(** * Shallow embedding of the schema type nodes of [arcaflow_plugin_sdk.schema]

    The development follows [src/arcaflow_plugin_sdk/schema.py]: the
    exceptions, the [AbstractType] interface with its three operations, the
    leaf types, [ListType], [MapType], [ObjectType] with its requiredness and
    conflict rules, [OneOfStringType], [ScopeType], [RefType], and the
    [StepType] / [SchemaType] dispatch layer.

    Python values are a tree of tagged values.  [unserialize] can update the
    raw data it is given in place ([data[i] = ...], [del data[...]]), so its
    model returns, next to the result, the state in which the call leaves the
    caller's object.  Raw data is taken to be tree shaped (no container that
    is reachable twice), which is what a JSON or YAML load produces. *)

From Stdlib Require Import String Ascii List ZArith Bool Lia DecimalString DecimalPos.
Import ListNotations.

Set Warnings "-register-all".

Local Open Scope string_scope.
Local Open Scope list_scope.

(** ** Python values *)

(** Keys of raw mappings, and segments of error paths.  The source appends raw
    map keys to the path without converting them ([new_path.append(key)]), so
    a segment is a string or an integer. *)
Inductive key : Type :=
| KStr (s : string)
| KInt (z : Z).

Coercion KStr : string >-> key.

Definition key_eqb (a b : key) : bool :=
  match a, b with
  | KStr s, KStr t => String.eqb s t
  | KInt x, KInt y => Z.eqb x y
  | _, _ => false
  end.

(** [VObj mro attrs] is an instance of a host class: [mro] lists the names of
    its class and of the ancestors of that class, [attrs] the attributes that
    [getattr] finds on it. *)
Inductive value : Type :=
| VNone
| VBool (b : bool)
| VInt (z : Z)
| VStr (s : string)
| VList (items : list value)
| VTuple (items : list value)
| VDict (entries : list (key * value))
| VObj (mro : list string) (attrs : list (string * value)).

Definition dict := list (key * value).
Definition path := list key.

(** ** Exceptions *)

Inductive exn : Type :=
| ConstraintException (p : path) (msg : string)
| NoSuchStepException (step : string)
| BadArgumentException
| InvalidInputException (p : path) (msg : string)
| InvalidOutputException (p : path) (msg : string)
| KeyError
| AttributeError
| TypeError.

Inductive res (A : Type) : Type :=
| Ok (a : A)
| Raise (e : exn).

Arguments Ok {A} a.
Arguments Raise {A} e.

Definition bind {A B : Type} (c : res A) (k : A -> res B) : res B :=
  match c with
  | Ok a => k a
  | Raise e => Raise e
  end.

Declare Scope res_scope.
Delimit Scope res_scope with res.
Notation "x <- c ;; k" := (bind c (fun x => k))
  (at level 100, c at next level, right associativity) : res_scope.
Notation "c ;;; k" := (bind c (fun _ => k))
  (at level 100, right associativity) : res_scope.
Local Open Scope res_scope.

Definition is_constraint (e : exn) : bool :=
  match e with
  | ConstraintException _ _ => true
  | _ => false
  end.

Definition raises_constraint {A : Type} (r : res A) : bool :=
  match r with
  | Raise e => is_constraint e
  | Ok _ => false
  end.

(** ** Association lists for ordered dictionaries *)

Section Assoc.
Context {K V : Type} (eqb : K -> K -> bool).

Fixpoint assoc_get (k : K) (l : list (K * V)) : option V :=
  match l with
  | [] => None
  | (k', v) :: r => if eqb k k' then Some v else assoc_get k r
  end.

Definition assoc_mem (k : K) (l : list (K * V)) : bool :=
  match assoc_get k l with
  | Some _ => true
  | None => false
  end.

(** Store [v] under an existing key. *)
Fixpoint assoc_update (k : K) (v : V) (l : list (K * V)) : list (K * V) :=
  match l with
  | [] => []
  | (k', v') :: r =>
      if eqb k k' then (k', v) :: r
      else (k', v') :: assoc_update k v r
  end.

(** [d[k] = v]: a new key goes to the end. *)
Definition assoc_set (k : K) (v : V) (l : list (K * V)) : list (K * V) :=
  if assoc_mem k l then assoc_update k v l else l ++ [(k, v)].

(** [del d[k]] *)
Fixpoint assoc_del (k : K) (l : list (K * V)) : list (K * V) :=
  match l with
  | [] => []
  | (k', v) :: r => if eqb k k' then assoc_del k r else (k', v) :: assoc_del k r
  end.
End Assoc.

Definition dict_get : key -> dict -> option value := assoc_get key_eqb.
Definition dict_mem : key -> dict -> bool := assoc_mem key_eqb.
Definition dict_update : key -> value -> dict -> dict := assoc_update key_eqb.
Definition dict_set : key -> value -> dict -> dict := assoc_set key_eqb.
Definition dict_del : key -> dict -> dict := assoc_del key_eqb.

Definition sget {V : Type} : string -> list (string * V) -> option V :=
  assoc_get String.eqb.
Definition smem {V : Type} : string -> list (string * V) -> bool :=
  assoc_mem String.eqb.
Definition sset {V : Type} : string -> V -> list (string * V) -> list (string * V) :=
  assoc_set String.eqb.

(** ** Built-ins used by the source *)

(** [str(i)] for an integer. *)
Definition str_of_Z (z : Z) : string := NilZero.string_of_int (Z.to_int z).

Definition str_of_key (k : key) : string :=
  match k with
  | KStr s => s
  | KInt z => str_of_Z z
  end.

(** [type(data).__name__] *)
Definition type_name (v : value) : string :=
  match v with
  | VNone => "NoneType"
  | VBool _ => "bool"
  | VInt _ => "int"
  | VStr _ => "str"
  | VList _ => "list"
  | VTuple _ => "tuple"
  | VDict _ => "dict"
  | VObj mro _ => hd "object" mro
  end.

(** [str(type(data))]; for a host class the module prefix is left out. *)
Definition type_repr (v : value) : string :=
  "<class '" ++ type_name v ++ "'>".

(** [isinstance(data, cls)] for a host class named [c]. *)
Definition isinstance (v : value) (c : string) : bool :=
  match v with
  | VObj mro _ => existsb (String.eqb c) mro
  | _ => false
  end.

(** [isinstance(data, int)]: [bool] is a subclass of [int]. *)
Definition as_int (v : value) : option Z :=
  match v with
  | VInt z => Some z
  | VBool b => Some (if b then 1%Z else 0%Z)
  | _ => None
  end.

Definition is_none (v : value) : bool :=
  match v with
  | VNone => true
  | _ => false
  end.

(** [str.lower] on ASCII text. *)
Definition lower_ascii (c : ascii) : ascii :=
  let n := nat_of_ascii c in
  if (65 <=? n)%nat && (n <=? 90)%nat then ascii_of_nat (n + 32) else c.

Fixpoint lower (s : string) : string :=
  match s with
  | EmptyString => EmptyString
  | String c r => String (lower_ascii c) (lower r)
  end.

(** [int(s)] for a string: surrounding white space, an optional sign, decimal
    digits with single underscores between them. *)
Definition is_space (c : ascii) : bool :=
  let n := nat_of_ascii c in
  (n =? 32)%nat || ((9 <=? n)%nat && (n <=? 13)%nat) || ((28 <=? n)%nat && (n <=? 31)%nat).

Fixpoint lstrip (l : list ascii) : list ascii :=
  match l with
  | c :: r => if is_space c then lstrip r else l
  | [] => []
  end.

Definition strip (l : list ascii) : list ascii :=
  rev (lstrip (rev (lstrip l))).

Fixpoint parse_digits (l : list ascii) (acc : Z) (after_digit : bool) : option Z :=
  match l with
  | [] => if after_digit then Some acc else None
  | c :: r =>
      let n := nat_of_ascii c in
      if (48 <=? n)%nat && (n <=? 57)%nat
      then parse_digits r (10 * acc + Z.of_nat (n - 48))%Z true
      else if (n =? 95)%nat && after_digit then parse_digits r acc false
      else None
  end.

Definition int_of_str (s : string) : option Z :=
  match strip (list_ascii_of_string s) with
  | c :: r =>
      if (nat_of_ascii c =? 45)%nat then option_map Z.opp (parse_digits r 0%Z false)
      else if (nat_of_ascii c =? 43)%nat then parse_digits r 0%Z false
      else parse_digits (c :: r) 0%Z false
  | [] => None
  end.

(** Attribute names of the built-in [dict] (CPython 3.9); [__hash__] is the one
    whose value is [None]. *)
Definition dict_attributes : list string :=
  [ "__class__"; "__class_getitem__"; "__contains__"; "__delattr__";
    "__delitem__"; "__dir__"; "__doc__"; "__eq__"; "__format__"; "__ge__";
    "__getattribute__"; "__getitem__"; "__gt__"; "__hash__"; "__init__";
    "__init_subclass__"; "__ior__"; "__iter__"; "__le__"; "__len__"; "__lt__";
    "__ne__"; "__new__"; "__or__"; "__reduce__"; "__reduce_ex__"; "__repr__";
    "__reversed__"; "__ror__"; "__setattr__"; "__setitem__"; "__sizeof__";
    "__str__"; "__subclasshook__"; "clear"; "copy"; "fromkeys"; "get"; "items";
    "keys"; "pop"; "popitem"; "setdefault"; "update"; "values" ].

(** [attr_none data name] is [None] when [hasattr(data, name)] is false, and
    otherwise tells whether [getattr(data, name) is None].  Only mappings and
    host objects reach the code that asks. *)
Definition attr_none (data : value) (name : string) : option bool :=
  match data with
  | VDict _ =>
      if existsb (String.eqb name) dict_attributes
      then Some (String.eqb name "__hash__")
      else None
  | VObj _ attrs => option_map is_none (sget name attrs)
  | _ => None
  end.

(** [getattr(data, name)] *)
Definition getattr (data : value) (name : string) : res value :=
  match data with
  | VObj _ attrs =>
      match sget name attrs with
      | Some v => Ok v
      | None => Raise AttributeError
      end
  | _ => Raise AttributeError
  end.

(** ** The three-operation interface *)

Module AbstractType.
(** [unserialize data path] returns the result and the state in which the
    call leaves [data]. *)
Record t : Type := Build {
  unserialize : value -> path -> res value * value;
  validate : value -> path -> res unit;
  serialize : value -> path -> res value
}.
End AbstractType.

(** ** Leaf types *)

Module BoolType.
Definition truthy : list string := ["yes"; "on"; "true"; "enable"; "enabled"; "1"].
Definition falsy : list string := ["no"; "off"; "false"; "disable"; "disabled"; "0"].

Definition unserialize (data : value) (p : path) : res value * value :=
  (match data with
   | VBool _ => Ok data
   | VInt z =>
       if (z =? 0)%Z then Ok (VBool false)
       else if (z =? 1)%Z then Ok (VBool true)
       else Raise (ConstraintException p
              ("Boolean value expected, integer found (" ++ str_of_Z z ++ ")"))
   | VStr s =>
       let lower_str := lower s in
       if existsb (String.eqb lower_str) truthy then Ok (VBool true)
       else if existsb (String.eqb lower_str) falsy then Ok (VBool false)
       else Raise (ConstraintException p
              ("Boolean value expected, string found (" ++ s ++ ")"))
   | _ => Raise (ConstraintException p
            ("Boolean value expected, " ++ type_repr data ++ " found"))
   end, data).

Definition validate (data : value) (p : path) : res unit :=
  match data with
  | VBool _ => Ok tt
  | _ => Raise (ConstraintException p
           ("Boolean value expected, " ++ type_repr data ++ " found"))
  end.

Definition serialize (data : value) (p : path) : res value :=
  match data with
  | VBool _ => Ok data
  | _ => Raise (ConstraintException p
           ("Boolean value expected, " ++ type_repr data ++ " found"))
  end.

Definition as_type : AbstractType.t :=
  AbstractType.Build unserialize validate serialize.
End BoolType.

(** A compiled regular expression: its printed form and its [match]. *)
Record Pattern : Type := {
  pattern_str : string;
  pattern_match : string -> bool
}.

Module StringType.
Record t : Type := Build {
  min : option Z;
  max : option Z;
  pattern : option Pattern
}.

Definition validate (self : t) (data : value) (p : path) : res unit :=
  match data with
  | VStr s =>
      let len := Z.of_nat (String.length s) in
      match min self with
      | Some m =>
          if (len <? m)%Z then
            Raise (ConstraintException p
              ("String must be at least " ++ str_of_Z m ++ " characters, "
                 ++ str_of_Z len ++ " given"))
          else Ok tt
      | None => Ok tt
      end ;;;
      match max self with
      | Some m =>
          if (m <? len)%Z then
            Raise (ConstraintException p
              ("String must be at most " ++ str_of_Z m ++ " characters, "
                 ++ str_of_Z len ++ " given"))
          else Ok tt
      | None => Ok tt
      end ;;;
      match pattern self with
      | Some re =>
          if pattern_match re s then Ok tt
          else Raise (ConstraintException p
                 ("String must match the pattern " ++ pattern_str re))
      | None => Ok tt
      end
  | _ => Raise (ConstraintException p
           ("Must be a string, " ++ type_repr data ++ " given"))
  end.

(** [str(data)] when [isinstance(data, int)]. *)
Definition coerce (data : value) : value :=
  match data with
  | VInt z => VStr (str_of_Z z)
  | VBool b => VStr (if b then "True" else "False")
  | _ => data
  end.

Definition unserialize (self : t) (data : value) (p : path) : res value * value :=
  (validate self (coerce data) p ;;; Ok (coerce data), data).

Definition serialize (self : t) (data : value) (p : path) : res value :=
  validate self data p ;;; Ok data.

Definition as_type (self : t) : AbstractType.t :=
  AbstractType.Build (unserialize self) (validate self) (serialize self).
End StringType.

Module IntType.
Record t : Type := Build {
  min : option Z;
  max : option Z
}.

Definition validate (self : t) (data : value) (p : path) : res unit :=
  match as_int data with
  | Some integer =>
      match min self with
      | Some m =>
          if (integer <? m)%Z then
            Raise (ConstraintException p ("Must be at least " ++ str_of_Z m))
          else Ok tt
      | None => Ok tt
      end ;;;
      match max self with
      | Some m =>
          if (m <? integer)%Z then
            Raise (ConstraintException p ("Must be at most " ++ str_of_Z m))
          else Ok tt
      | None => Ok tt
      end
  | None => Raise (ConstraintException p
              ("Must be an integer, " ++ type_name data ++ " given"))
  end.

Definition unserialize (self : t) (data : value) (p : path) : res value * value :=
  (match data with
   | VStr s =>
       match int_of_str s with
       | Some z => validate self (VInt z) p ;;; Ok (VInt z)
       | None => Raise (ConstraintException p "Must be an integer")
       end
   | _ => validate self data p ;;; Ok data
   end, data).

Definition serialize (self : t) (data : value) (p : path) : res value :=
  validate self data p ;;; Ok data.

Definition as_type (self : t) : AbstractType.t :=
  AbstractType.Build (unserialize self) (validate self) (serialize self).
End IntType.

(** ** Containers *)

Module ListType.
Record t : Type := Build {
  items : AbstractType.t;
  min : option Z;
  max : option Z
}.

Definition _validate (self : t) (data : value) (p : path) : res unit :=
  match data with
  | VList l =>
      let len := Z.of_nat (length l) in
      match min self with
      | Some m =>
          if (len <? m)%Z then
            Raise (ConstraintException p
              ("Must have at least " ++ str_of_Z m ++ " items, "
                 ++ str_of_Z len ++ " given"))
          else Ok tt
      | None => Ok tt
      end ;;;
      match max self with
      | Some m =>
          if (m <? len)%Z then
            Raise (ConstraintException p
              ("Must have at most " ++ str_of_Z m ++ " items, "
                 ++ str_of_Z len ++ " given"))
          else Ok tt
      | None => Ok tt
      end
  | _ => Raise (ConstraintException p
           ("Must be a list, " ++ type_name data ++ " given"))
  end.

Definition item_path (p : path) (i : nat) : path :=
  p ++ [KStr (str_of_Z (Z.of_nat i))].

(** The loop [data[i] = self.items.unserialize(data[i], ...)] from index
    [i] on: the exception that stopped it, if any, and the list as the loop
    leaves it. *)
Fixpoint unserialize_items (self : t) (p : path) (i : nat) (l : list value)
  : option exn * list value :=
  match l with
  | [] => (None, [])
  | x :: r =>
      match AbstractType.unserialize (items self) x (item_path p i) with
      | (Ok y, _) =>
          let (e, r') := unserialize_items self p (S i) r in (e, y :: r')
      | (Raise e, x') => (Some e, x' :: r)
      end
  end.

Definition unserialize (self : t) (data : value) (p : path) : res value * value :=
  match data with
  | VList l =>
      match unserialize_items self p 0 l with
      | (Some e, l') => (Raise e, VList l')
      | (None, l') => (_validate self (VList l') p ;;; Ok (VList l'), VList l')
      end
  | _ => (Raise (ConstraintException p
            ("Must be a list, " ++ type_name data ++ " given")), data)
  end.

Fixpoint validate_items (self : t) (p : path) (i : nat) (l : list value) : res unit :=
  match l with
  | [] => Ok tt
  | x :: r =>
      AbstractType.validate (items self) x (item_path p i) ;;;
      validate_items self p (S i) r
  end.

Definition validate (self : t) (data : value) (p : path) : res unit :=
  _validate self data p ;;;
  match data with
  | VList l => validate_items self p 0 l
  | _ => Ok tt
  end.

Fixpoint serialize_items (self : t) (p : path) (i : nat) (l : list value)
  : res (list value) :=
  match l with
  | [] => Ok []
  | x :: r =>
      y <- AbstractType.serialize (items self) x (item_path p i) ;;
      r' <- serialize_items self p (S i) r ;;
      Ok (y :: r')
  end.

Definition serialize (self : t) (data : value) (p : path) : res value :=
  _validate self data p ;;;
  match data with
  | VList l => result <- serialize_items self p 0 l ;; Ok (VList result)
  | _ => Ok data
  end.

Definition as_type (self : t) : AbstractType.t :=
  AbstractType.Build (unserialize self) (validate self) (serialize self).
End ListType.

Definition value_of_key (k : key) : value :=
  match k with
  | KStr s => VStr s
  | KInt z => VInt z
  end.

(** A value used as a dictionary key.  Map keys are strings or integers
    ([MAP_KEY_TYPE]); anything else is refused here the way an unhashable
    value is. *)
Definition key_of_value (v : value) : res key :=
  match v with
  | VStr s => Ok (KStr s)
  | VInt z => Ok (KInt z)
  | _ => Raise TypeError
  end.

Module MapType.
Record t : Type := Build {
  keys : AbstractType.t;
  values : AbstractType.t;
  min : option Z;
  max : option Z
}.

Definition _validate (self : t) (data : value) (p : path) : res dict :=
  match data with
  | VDict entries =>
      let len := Z.of_nat (length entries) in
      match min self with
      | Some m =>
          if (len <? m)%Z then Raise (ConstraintException [] EmptyString)
          else Ok tt
      | None => Ok tt
      end ;;;
      match max self with
      | Some m =>
          if (m <? len)%Z then Raise (ConstraintException [] EmptyString)
          else Ok tt
      | None => Ok tt
      end ;;;
      Ok entries
  | _ => Raise (ConstraintException p
           ("Must be a dict, " ++ type_name data ++ " given"))
  end.

(** [entries[key]] for a key taken from [entries.keys()]. *)
Definition item (entries : dict) (key : key) : res value :=
  match dict_get key entries with
  | Some v => Ok v
  | None => Raise KeyError
  end.

(** The loop of [unserialize] over the remaining keys of [entries], with the
    [result] built so far and the caller's mapping [data], whose values the
    copy [entries] shares. *)
Fixpoint unserialize_entries (self : t) (p : path) (keys_left : list key)
         (result : dict) (data : dict) : res dict * dict :=
  match keys_left with
  | [] => (Ok result, data)
  | key :: r =>
      match item data key with
      | Raise e => (Raise e, data)
      | Ok value =>
          let new_path := p ++ [key] in
          let key_path := new_path ++ [KStr "key"] in
          let value_path := new_path ++ [KStr "value"] in
          match fst (AbstractType.unserialize (keys self) (value_of_key key) key_path) with
          | Raise e => (Raise e, data)
          | Ok uk =>
              match key_of_value uk with
              | Raise e => (Raise e, data)
              | Ok unserialized_key =>
                  if dict_mem unserialized_key result then
                    (Raise (ConstraintException key_path
                              "Key already exists in result dict"), data)
                  else
                    match AbstractType.unserialize (values self) value value_path with
                    | (Raise e, value') => (Raise e, dict_update key value' data)
                    | (Ok v, value') =>
                        unserialize_entries self p r
                          (dict_set unserialized_key v result)
                          (dict_update key value' data)
                    end
              end
          end
      end
  end.

Definition unserialize (self : t) (data : value) (p : path) : res value * value :=
  match _validate self data p with
  | Raise e => (Raise e, data)
  | Ok entries =>
      match unserialize_entries self p (map fst entries) [] entries with
      | (Ok result, data') => (Ok (VDict result), VDict data')
      | (Raise e, data') => (Raise e, VDict data')
      end
  end.

Fixpoint validate_entries (self : t) (p : path) (keys_left : list key) (data : dict)
  : res unit :=
  match keys_left with
  | [] => Ok tt
  | key :: r =>
      value <- item data key ;;
      let new_path := p ++ [key] in
      let key_path := new_path ++ [KStr "key"] in
      AbstractType.validate (keys self) (value_of_key key) key_path ;;;
      AbstractType.validate (values self) value new_path ;;;
      validate_entries self p r data
  end.

Definition validate (self : t) (data : value) (p : path) : res unit :=
  entries <- _validate self data p ;;
  validate_entries self p (map fst entries) entries.

Fixpoint serialize_entries (self : t) (p : path) (keys_left : list key) (data : dict)
         (result : dict) : res dict :=
  match keys_left with
  | [] => Ok result
  | key :: r =>
      let key_path := p ++ [KStr (str_of_key key)] ++ [KStr "key"] in
      let value_path := p ++ [KStr (str_of_key key)] ++ [KStr "value"] in
      sk <- AbstractType.serialize (keys self) (value_of_key key) key_path ;;
      value <- item data key ;;
      v <- AbstractType.serialize (values self) value value_path ;;
      serialized_key <- key_of_value sk ;;
      serialize_entries self p r data (dict_set serialized_key v result)
  end.

Definition serialize (self : t) (data : value) (p : path) : res value :=
  entries <- _validate self data p ;;
  result <- serialize_entries self p (map fst entries) entries [] ;;
  entries' <- _validate self (VDict result) p ;;
  Ok (VDict entries').

Definition as_type (self : t) : AbstractType.t :=
  AbstractType.Build (unserialize self) (validate self) (serialize self).
End MapType.

(** ** Host classes *)

(** The record class an object is bound to: its [__name__] and its
    constructor, called with keyword arguments. *)
Module PyClass.
Record t : Type := Build {
  name : string;
  init : list (string * value) -> res value
}.
End PyClass.

(** The [__init__] that [@dataclass] generates for fields with optional
    defaults: an unknown keyword or a field with neither argument nor default
    is a TypeError. *)
Fixpoint dataclass_fill (fields : list (string * option value))
         (kwargs : list (string * value)) : res (list (string * value)) :=
  match fields with
  | [] => Ok []
  | (f, default) :: r =>
      v <- match sget f kwargs, default with
           | Some v, _ => Ok v
           | None, Some d => Ok d
           | None, None => Raise TypeError
           end ;;
      rest <- dataclass_fill r kwargs ;;
      Ok ((f, v) :: rest)
  end.

Definition dataclass_init (name : string) (fields : list (string * option value))
           (kwargs : list (string * value)) : res value :=
  if forallb (fun kv => smem (fst kv) fields) kwargs then
    attrs <- dataclass_fill fields kwargs ;;
    Ok (VObj [name] attrs)
  else Raise TypeError.

Definition dataclass (name : string) (fields : list (string * option value)) : PyClass.t :=
  PyClass.Build name (dataclass_init name fields).

(** ** Objects and their properties *)

Module PropertyType.
Record t : Type := Build {
  type : AbstractType.t;
  required : bool;
  required_if : list string;
  required_if_not : list string;
  conflicts : list string;
  field_override : string
}.

(** [field_id]: the property id unless [field_override] is set. *)
Definition field_id (property_id : string) (self : t) : string :=
  if String.eqb (field_override self) EmptyString then property_id
  else field_override self.
End PropertyType.

Module ObjectType.
Record t : Type := Build {
  cls : PyClass.t;
  properties : list (string * PropertyType.t)
}.

Definition property_ids (self : t) : list string := map fst (properties self).

(** [name in data] as the source tests it on either kind of [data]:
    [isinstance(data, dict) and name in data]. *)
Definition in_dict (data : value) (name : string) : bool :=
  match data with
  | VDict entries => dict_mem (KStr name) entries
  | _ => false
  end.

Definition required_if_hit (data : value) (name : string) : bool :=
  in_dict data name
  || match attr_none data name with Some true => true | _ => false end.

Definition required_if_not_hit (data : value) (name : string) : bool :=
  in_dict data name
  || match attr_none data name with Some false => true | _ => false end.

Definition _validate_not_set (data : value) (object_property : PropertyType.t)
           (p : path) : res unit :=
  (if PropertyType.required object_property
   then Raise (ConstraintException p "This field is required")
   else Ok tt) ;;;
  match find (required_if_hit data) (PropertyType.required_if object_property) with
  | Some required_if =>
      Raise (ConstraintException p
        ("This field is required because '" ++ required_if ++ "' is set"))
  | None => Ok tt
  end ;;;
  match PropertyType.required_if_not object_property with
  | [] => Ok tt
  | names =>
      let none_set := negb (existsb (required_if_not_hit data) names) in
      if none_set then
        match names with
        | [single] =>
            Raise (ConstraintException p
              ("This field is required because '" ++ single ++ "' is not set"))
        | _ =>
            Raise (ConstraintException p
              ("This field is required because none of '"
                 ++ String.concat "', '" names ++ "' are set"))
        end
      else Ok tt
  end.

(** The first key of [data] that is no declared property. *)
Definition unknown_key (self : t) (data : dict) : option key :=
  find (fun k => match k with
                 | KStr s => negb (smem s (properties self))
                 | KInt _ => true
                 end) (map fst data).

(** The loop of [unserialize] over the remaining properties, with the
    [kwargs] collected so far and the caller's mapping [data]. *)
Fixpoint unserialize_properties (props : list (string * PropertyType.t)) (p : path)
         (data : dict) (kwargs : list (string * value))
  : res (list (string * value)) * dict :=
  match props with
  | [] => (Ok kwargs, data)
  | (property_id, object_property) :: r =>
      let new_path := p ++ [KStr property_id] in
      let property_value :=
        match dict_get (KStr property_id) data with
        | Some v => v
        | None => VNone
        end in
      if is_none property_value then
        match _validate_not_set (VDict data) object_property new_path with
        | Raise e => (Raise e, data)
        | Ok _ => unserialize_properties r p data kwargs
        end
      else
        let field_id := PropertyType.field_id property_id object_property in
        match AbstractType.unserialize (PropertyType.type object_property)
                property_value new_path with
        | (Raise e, value') => (Raise e, dict_update (KStr property_id) value' data)
        | (Ok v, value') =>
            let data' := dict_update (KStr property_id) value' data in
            match find (fun conflict => dict_mem (KStr conflict) data')
                       (PropertyType.conflicts object_property) with
            | Some conflict =>
                (Raise (ConstraintException new_path
                   ("Field conflicts '" ++ conflict
                      ++ "', set one of the two, not both")), data')
            | None => unserialize_properties r p data' (sset field_id v kwargs)
            end
        end
  end.

Definition unserialize (self : t) (data : value) (p : path) : res value * value :=
  match data with
  | VDict entries =>
      match unknown_key self entries with
      | Some key =>
          (Raise (ConstraintException p
             ("Invalid parameter '" ++ str_of_key key ++ "', expected one of: "
                ++ String.concat ", " (property_ids self))), data)
      | None =>
          match unserialize_properties (properties self) p entries [] with
          | (Ok kwargs, data') => (PyClass.init (cls self) kwargs, VDict data')
          | (Raise e, data') => (Raise e, VDict data')
          end
      end
  | _ => (Raise (ConstraintException p
            ("Must be a dict, got " ++ type_name data)), data)
  end.

Definition _validate_property (self : t) (data : value) (p : path)
           (field_id property_id : string) : res (path * value) :=
  let new_path := p ++ [KStr property_id] in
  value <- getattr data field_id ;;
  property_field <- match sget property_id (properties self) with
                    | Some pf => Ok pf
                    | None => Raise KeyError
                    end ;;
  (if is_none value then _validate_not_set data property_field new_path else Ok tt) ;;;
  Ok (new_path, value).

Definition instance_error (self : t) (data : value) (p : path) : exn :=
  ConstraintException p
    ("Must be an instance of " ++ PyClass.name (cls self) ++ ", "
       ++ type_name data ++ " given").

(** First loop of [validate]: the [values] found set. *)
Fixpoint validate_collect (self : t) (props : list (string * PropertyType.t))
         (data : value) (p : path) (values : list (string * value))
  : res (list (string * value)) :=
  match props with
  | [] => Ok values
  | (property_id, property_field) :: r =>
      let field_id := PropertyType.field_id property_id property_field in
      pv <- _validate_property self data p field_id property_id ;;
      let (new_path, value) := pv : path * value in
      if is_none value then validate_collect self r data p values
      else
        AbstractType.validate (PropertyType.type property_field) value new_path ;;;
        validate_collect self r data p (sset property_id value values)
  end.

(** Second loop of [validate]: conflicts of the properties that are set,
    requiredness of those that are not. *)
Fixpoint validate_rules (props : list (string * PropertyType.t)) (p : path)
         (values : list (string * value)) : res unit :=
  match props with
  | [] => Ok tt
  | (property_id, property_field) :: r =>
      let new_path := p ++ [KStr property_id] in
      (if smem property_id values then
         match find (fun c => smem c values) (PropertyType.conflicts property_field) with
         | Some conflicts =>
             Raise (ConstraintException new_path ("Field conflicts with " ++ conflicts))
         | None => Ok tt
         end
       else
         (if PropertyType.required property_field
          then Raise (ConstraintException new_path "Field is required but not set")
          else Ok tt) ;;;
         match PropertyType.required_if_not property_field with
         | [] => Ok tt
         | names =>
             if existsb (fun n => smem n values) names then Ok tt
             else Raise (ConstraintException new_path
                    ("Field is required because none of '"
                       ++ String.concat "', '" names ++ "' are set"))
         end ;;;
         if existsb (fun n => smem n values) (PropertyType.required_if property_field)
         then Raise (ConstraintException new_path
                ("Field is required because none of '"
                   ++ String.concat "', '" (PropertyType.required_if_not property_field)
                   ++ "' are set"))
         else Ok tt) ;;;
      validate_rules r p values
  end.

Definition validate (self : t) (data : value) (p : path) : res unit :=
  if isinstance data (PyClass.name (cls self)) then
    values <- validate_collect self (properties self) data p [] ;;
    validate_rules (properties self) p values
  else Raise (instance_error self data p).

Fixpoint serialize_properties (self : t) (props : list (string * PropertyType.t))
         (data : value) (p : path) (result : dict) : res dict :=
  match props with
  | [] => Ok result
  | (property_id, property_field) :: r =>
      let field_id := PropertyType.field_id property_id property_field in
      pv <- _validate_property self data p field_id property_id ;;
      let (new_path, value) := pv : path * value in
      if is_none value then serialize_properties self r data p result
      else
        attr <- getattr data field_id ;;
        v <- AbstractType.serialize (PropertyType.type property_field) attr new_path ;;
        serialize_properties self r data p (dict_set (KStr property_id) v result)
  end.

Definition serialize (self : t) (data : value) (p : path) : res value :=
  if isinstance data (PyClass.name (cls self)) then
    result <- serialize_properties self (properties self) data p [] ;;
    Ok (VDict result)
  else Raise (instance_error self data p).

Definition as_type (self : t) : AbstractType.t :=
  AbstractType.Build (unserialize self) (validate self) (serialize self).
End ObjectType.

(** ** Discriminated unions *)

Module OneOfStringType.
Record t : Type := Build {
  types : list (string * ObjectType.t);
  discriminator_field_name : string
}.

Definition unserialize (self : t) (data : value) (p : path) : res value * value :=
  match data with
  | VDict entries =>
      let new_path := p ++ [KStr (discriminator_field_name self)] in
      match dict_get (KStr (discriminator_field_name self)) entries with
      | None =>
          (Raise (ConstraintException new_path
                    "Required discriminator field not found"), data)
      | Some (VStr unserialized_discriminator_field) =>
          match sget unserialized_discriminator_field (types self) with
          | None =>
              (Raise (ConstraintException new_path
                 ("Invalid value for field: '" ++ unserialized_discriminator_field
                    ++ "' expected one of: '"
                    ++ String.concat "', '" (map fst (types self)) ++ "'")), data)
          | Some sub_type =>
              let entries' :=
                if smem (discriminator_field_name self) (ObjectType.properties sub_type)
                then entries
                else dict_del (KStr (discriminator_field_name self)) entries in
              ObjectType.unserialize sub_type (VDict entries') p
          end
      | Some other =>
          (Raise (ConstraintException new_path
             ("String required, " ++ type_name other ++ " found")), data)
      end
  | _ => (Raise (ConstraintException p
            ("Must be a dict, got " ++ type_name data)), data)
  end.

(** [getattr(data, self.discriminator_field_name) != discriminator] *)
Definition discriminator_differs (self : t) (data : value) (discriminator : string)
  : res bool :=
  v <- getattr data (discriminator_field_name self) ;;
  Ok (match v with
      | VStr s => negb (String.eqb s discriminator)
      | _ => true
      end).

Definition discriminator_error (self : t) (item_schema : ObjectType.t)
           (discriminator : string) (p : path) : exn :=
  ConstraintException (p ++ [KStr (discriminator_field_name self)])
    ("Invalid value for '" ++ discriminator_field_name self ++ "' on '"
       ++ PyClass.name (ObjectType.cls item_schema) ++ "', should be: '"
       ++ discriminator ++ "'").

Definition type_error (self : t) (data : value) (p : path) : exn :=
  ConstraintException p
    ("Invalid type: '" ++ type_name data ++ "', expected one of '"
       ++ String.concat "', '"
            (map (fun e => PyClass.name (ObjectType.cls (snd e))) (types self))
       ++ "'").

Fixpoint validate_types (self : t) (items : list (string * ObjectType.t))
         (data : value) (p : path) : res unit :=
  match items with
  | [] => Raise (type_error self data p)
  | (discriminator, item_schema) :: r =>
      if isinstance data (PyClass.name (ObjectType.cls item_schema)) then
        ObjectType.validate item_schema data [] ;;;
        if smem (discriminator_field_name self) (ObjectType.properties item_schema) then
          differs <- discriminator_differs self data discriminator ;;
          if differs then Raise (discriminator_error self item_schema discriminator p)
          else Ok tt
        else Ok tt
      else validate_types self r data p
  end.

Definition validate (self : t) (data : value) (p : path) : res unit :=
  validate_types self (types self) data p.

Fixpoint serialize_types (self : t) (items : list (string * ObjectType.t))
         (data : value) (p : path) : res value :=
  match items with
  | [] => Raise (type_error self data p)
  | (discriminator, item_schema) :: r =>
      if isinstance data (PyClass.name (ObjectType.cls item_schema)) then
        serialized_data <- ObjectType.serialize item_schema data [] ;;
        if smem (discriminator_field_name self) (ObjectType.properties item_schema) then
          differs <- discriminator_differs self data discriminator ;;
          if differs then Raise (discriminator_error self item_schema discriminator p)
          else Ok serialized_data
        else
          match serialized_data with
          | VDict d =>
              Ok (VDict (dict_set (KStr (discriminator_field_name self))
                                  (VStr discriminator) d))
          | _ => Raise TypeError
          end
      else serialize_types self r data p
  end.

Definition serialize (self : t) (data : value) (p : path) : res value :=
  serialize_types self (types self) data p.

Definition as_type (self : t) : AbstractType.t :=
  AbstractType.Build (unserialize self) (validate self) (serialize self).
End OneOfStringType.

(** ** Scopes and references *)

Module ScopeType.
Record t : Type := Build {
  root : string;
  objects : list (string * ObjectType.t)
}.

(** [self.objects[id]] *)
Definition lookup (self : t) (id : string) : res ObjectType.t :=
  match sget id (objects self) with
  | Some o => Ok o
  | None => Raise KeyError
  end.

(** [root_object.__name__].  An [ObjectType] instance carries [properties]
    and [_cls], set by [__init__], and the property [cls]; neither
    [ObjectType] nor [ObjectSchema], [AbstractType] or [Generic] gives its
    instances a [__name__].  That attribute belongs to classes (the
    source reads it elsewhere as [self._cls.__name__]), so looking it up on
    the instance raises AttributeError. *)
Definition __name__ (root_object : ObjectType.t) : res string :=
  Raise AttributeError.

Definition unserialize (self : t) (data : value) (p : path) : res value * value :=
  match (root_object <- lookup self (root self) ;;
         name <- __name__ root_object ;;
         Ok (root_object, p ++ [KStr name])) with
  | Ok (root_object, new_path) => ObjectType.unserialize root_object data new_path
  | Raise e => (Raise e, data)
  end.

Definition validate (self : t) (data : value) (p : path) : res unit :=
  root_object <- lookup self (root self) ;;
  name <- __name__ root_object ;;
  ObjectType.validate root_object data (p ++ [KStr name]).

Definition serialize (self : t) (data : value) (p : path) : res value :=
  root_object <- lookup self (root self) ;;
  name <- __name__ root_object ;;
  ObjectType.serialize root_object data (p ++ [KStr name]).

Definition as_type (self : t) : AbstractType.t :=
  AbstractType.Build (unserialize self) (validate self) (serialize self).
End ScopeType.

Module RefType.
Record t : Type := Build {
  id : string;
  _scope : ScopeType.t
}.

Definition unserialize (self : t) (data : value) (p : path) : res value * value :=
  match ScopeType.lookup (_scope self) (id self) with
  | Ok o => ObjectType.unserialize o data p
  | Raise e => (Raise e, data)
  end.

Definition validate (self : t) (data : value) (p : path) : res unit :=
  o <- ScopeType.lookup (_scope self) (id self) ;;
  ObjectType.validate o data p.

Definition serialize (self : t) (data : value) (p : path) : res value :=
  o <- ScopeType.lookup (_scope self) (id self) ;;
  ObjectType.serialize o data p.

Definition as_type (self : t) : AbstractType.t :=
  AbstractType.Build (unserialize self) (validate self) (serialize self).
End RefType.

(** ** Steps and schemas *)

(** [hash(v)] succeeds: lists and mappings are unhashable, and so are the
    instances of a dataclass, which defines [__eq__]. *)
Fixpoint hashable (v : value) : bool :=
  match v with
  | VList _ | VDict _ | VObj _ _ => false
  | VTuple l => forallb hashable l
  | _ => true
  end.

Fixpoint chars (s : string) : list value :=
  match s with
  | EmptyString => []
  | String c r => VStr (String c EmptyString) :: chars r
  end.

(** The items that [len(result)] counts and [output_id, output_data = result]
    unpacks. *)
Definition sequence_items (v : value) : res (list value) :=
  match v with
  | VTuple l | VList l => Ok l
  | VStr s => Ok (chars s)
  | VDict d => Ok (map (fun e => value_of_key (fst e)) d)
  | _ => Raise TypeError
  end.

Module StepType.
(** [input] and the entries of [outputs] are annotated as scopes in the
    source; the operations only ever call the three methods of
    [AbstractType] on them, so any implementation of that interface can
    stand there, [ScopeType.as_type] among them. *)
Record t : Type := Build {
  _handler : value -> res value;
  input : AbstractType.t;
  outputs : list (string * AbstractType.t)
}.

(** [self.outputs[output_id]] after [output_id not in self.outputs]. *)
Definition find_output (self : t) (output_id : value)
  : res (string * AbstractType.t) :=
  if hashable output_id then
    match output_id with
    | VStr s =>
        match sget s (outputs self) with
        | Some output => Ok (s, output)
        | None => Raise BadArgumentException
        end
    | _ => Raise BadArgumentException
    end
  else Raise TypeError.

Definition call (self : t) (params : value)
           (skip_input_validation skip_output_validation : bool)
  : res (string * value) :=
  (if skip_input_validation then Ok tt
   else AbstractType.validate (input self) params [KStr "input"]) ;;;
  result <- _handler self params ;;
  items <- sequence_items result ;;
  match items with
  | [output_id; output_data] =>
      found <- find_output self output_id ;;
      let (id, output) := found : string * AbstractType.t in
      (if skip_output_validation then Ok tt
       else AbstractType.validate output output_data [KStr "output"; KStr id]) ;;;
      Ok (id, output_data)
  | _ => Raise BadArgumentException
  end.
End StepType.

Module SchemaType.
Record t : Type := Build {
  steps : list (string * StepType.t)
}.

Definition find_step (self : t) (step_id : string) : res StepType.t :=
  match sget step_id (steps self) with
  | Some step => Ok step
  | None => Raise (NoSuchStepException step_id)
  end.

(** [except ConstraintException as e: raise InvalidInputException(e)] *)
Definition wrap_input {A : Type} (r : res A) : res A :=
  match r with
  | Raise (ConstraintException p msg) => Raise (InvalidInputException p msg)
  | _ => r
  end.

(** [except ConstraintException as e: raise InvalidOutputException(e)] *)
Definition wrap_output {A : Type} (r : res A) : res A :=
  match r with
  | Raise (ConstraintException p msg) => Raise (InvalidOutputException p msg)
  | _ => r
  end.

Definition _unserialize_input (step : StepType.t) (data : value) : res value * value :=
  let (r, data') := AbstractType.unserialize (StepType.input step) data [] in
  (wrap_input r, data').

Definition unserialize_input (self : t) (step_id : string) (data : value)
  : res value * value :=
  match find_step self step_id with
  | Ok step => _unserialize_input step data
  | Raise e => (Raise e, data)
  end.

Definition _call_step (step : StepType.t) (input_param : value)
           (skip_input_validation skip_output_validation : bool)
  : res (string * value) :=
  StepType.call step input_param skip_input_validation skip_output_validation.

Definition call_step (self : t) (step_id : string) (input_param : value)
  : res (string * value) :=
  step <- find_step self step_id ;;
  _call_step step input_param false false.

Definition _serialize_output (step : StepType.t) (output_id : string)
           (output_data : value) : res value :=
  wrap_output
    (output <- match sget output_id (StepType.outputs step) with
               | Some o => Ok o
               | None => Raise KeyError
               end ;;
     AbstractType.serialize output output_data []).

Definition serialize_output (self : t) (step_id output_id : string)
           (output_data : value) : res value :=
  step <- find_step self step_id ;;
  _serialize_output step output_id output_data.

(** [__call__]; the second component is the state of the caller's [data]. *)
Definition call (self : t) (step_id : string) (data : value)
           (skip_serialization : bool) : res (string * value) * value :=
  match find_step self step_id with
  | Raise e => (Raise e, data)
  | Ok step =>
      let (r, data') := _unserialize_input step data in
      (input_param <- r ;;
       out <- _call_step step input_param true true ;;
       let (output_id, output_data) := out : string * value in
       if skip_serialization then
         output <- match sget output_id (StepType.outputs step) with
                   | Some o => Ok o
                   | None => Raise KeyError
                   end ;;
         AbstractType.validate output output_data [] ;;;
         Ok (output_id, output_data)
       else
         serialized_output_data <- _serialize_output step output_id output_data ;;
         Ok (output_id, serialized_output_data),
       data')
  end.
End SchemaType.

(** ** Sample schemas *)

Definition any_int : AbstractType.t := IntType.as_type (IntType.Build None None).

Definition any_string : AbstractType.t :=
  StringType.as_type (StringType.Build None None None).

(** A property that is not required and declares no rule. *)
Definition optional (type : AbstractType.t) : PropertyType.t :=
  PropertyType.Build type false [] [] [] EmptyString.

(** [X] conflicts with [Y]; both default to [None]. *)
Definition xy_object : ObjectType.t :=
  ObjectType.Build
    (dataclass "XY" [("X", Some VNone); ("Y", Some VNone)])
    [ ("X", PropertyType.Build any_int false [] [] ["Y"] EmptyString);
      ("Y", optional any_int) ].

Definition xy (x y : value) : value := VObj ["XY"] [("X", x); ("Y", y)].

(** [A] is required if [B] is set; both default to [None]. *)
Definition ab_object : ObjectType.t :=
  ObjectType.Build
    (dataclass "AB" [("A", Some VNone); ("B", Some VNone)])
    [ ("A", PropertyType.Build any_int false ["B"] [] [] EmptyString);
      ("B", optional any_int) ].

Definition ab (a b : value) : value := VObj ["AB"] [("A", a); ("B", b)].

(** A union over one member that does not declare the discriminator. *)
Definition f_object : ObjectType.t :=
  ObjectType.Build
    (dataclass "F" [("f", None)])
    [ ("f", PropertyType.Build any_int true [] [] [] EmptyString) ].

Definition a_union : OneOfStringType.t :=
  OneOfStringType.Build [("a", f_object)] "_type".

(** A step whose handler returns an output that its own schema refuses. *)
Definition in_object : ObjectType.t :=
  ObjectType.Build (dataclass "In" []) [].

Definition out_object : ObjectType.t :=
  ObjectType.Build
    (dataclass "Out" [("x", None)])
    [ ("x", PropertyType.Build (IntType.as_type (IntType.Build (Some 0%Z) None))
              true [] [] [] EmptyString) ].

Definition bad_step : StepType.t :=
  StepType.Build
    (fun _ => Ok (VTuple [VStr "success"; VObj ["Out"] [("x", VInt (-1))]]))
    (ObjectType.as_type in_object)
    [("success", ObjectType.as_type out_object)].

Definition bad_schema : SchemaType.t := SchemaType.Build [("run", bad_step)].

(** A map of at least one entry. *)
Definition nonempty_map : MapType.t :=
  MapType.Build any_string any_int (Some 1%Z) None.

Definition int_list : ListType.t :=
  ListType.Build any_int None None.

(** A scope with a root object without properties. *)
Definition a_scope : ScopeType.t :=
  ScopeType.Build "A" [("A", ObjectType.Build (dataclass "A" []) [])].

(** A property that declares a conflict with [other] and nothing else. *)
Definition conflicting (type : AbstractType.t) (other : string) : PropertyType.t :=
  PropertyType.Build type false [] [] [other] EmptyString.

(** An object of two optional properties, [x] declaring a conflict with [y],
    in either order of declaration. *)
Definition conflict_object (c : PyClass.t) (x y : string) (tx ty : AbstractType.t)
           (x_first : bool) : ObjectType.t :=
  ObjectType.Build c
    (if x_first then [(x, conflicting tx y); (y, optional ty)]
     else [(y, optional ty); (x, conflicting tx y)]).

(** A union member with the single property [f], bound to a dataclass named
    [c] whose field [f] has no default. *)
Definition f_member (c : string) (tf : AbstractType.t) (required : bool)
           (required_if required_if_not : list string) : ObjectType.t :=
  ObjectType.Build
    (dataclass c [("f", None)])
    [ ("f", PropertyType.Build tf required required_if required_if_not []
              EmptyString) ].

(** A union whose only key is the string ["1"]. *)
Definition one_union : OneOfStringType.t :=
  OneOfStringType.Build [("1", f_object)] "_type".

(** ** Vocabulary of the statements *)

(** [sub] occurs in [s]. *)
Definition contains (sub s : string) : Prop :=
  exists a b, s = (a ++ sub ++ b)%string.





(** [lo <= z <= hi] for optional inclusive bounds. *)
Definition within (lo hi : option Z) (z : Z) : Prop :=
  (forall m, lo = Some m -> (m <= z)%Z) /\ (forall m, hi = Some m -> (z <= m)%Z).

(** The characters that print the digits of [d]. *)
Definition uint_chars (d : Decimal.uint) : list ascii :=
  list_ascii_of_string (NilEmpty.string_of_uint d).

(** A union whose member declares the discriminator as a property. *)
Definition tagged_object : ObjectType.t :=
  ObjectType.Build
    (dataclass "T" [("_type", None)])
    [ ("_type", PropertyType.Build any_string true [] [] [] EmptyString) ].

Definition tagged_union : OneOfStringType.t :=
  OneOfStringType.Build [("t", tagged_object)] "_type".

(** A step whose handler returns an output that its schema accepts. *)
Definition good_step : StepType.t :=
  StepType.Build
    (fun _ => Ok (VTuple [VStr "success"; VObj ["Out"] [("x", VInt 1)]]))
    (ObjectType.as_type in_object)
    [("success", ObjectType.as_type out_object)].

Definition good_schema : SchemaType.t := SchemaType.Build [("run", good_step)].

(** * Properties *)

(** ** Dictionaries *)

Lemma key_eqb_spec (a b : key) : reflect (a = b) (key_eqb a b).
Proof.
  destruct a as [s|x], b as [t|y]; simpl.
  - destruct (String.eqb_spec s t); constructor; congruence.
  - constructor; discriminate.
  - constructor; discriminate.
  - destruct (Z.eqb_spec x y); constructor; congruence.
Qed.

Lemma key_eqb_refl (a : key) : key_eqb a a = true.
Proof. destruct (key_eqb_spec a a); congruence. Qed.

Lemma key_eqb_neq (a b : key) : a <> b -> key_eqb a b = false.
Proof. destruct (key_eqb_spec a b); congruence. Qed.

Lemma key_eqb_str (s t : string) : key_eqb (KStr s) (KStr t) = String.eqb s t.
Proof. reflexivity. Qed.

Lemma eqb_neq_false (s t : string) : s <> t -> String.eqb s t = false.
Proof. apply String.eqb_neq. Qed.

Section DictFacts.
Variables k : key.




Lemma dict_get_update_other (j : key) (v : value) (d : dict) :
  j <> k -> dict_get k (dict_update j v d) = dict_get k d.
Proof.
  intros Hjk. induction d as [|[k' v'] d IH]; simpl; [reflexivity|].
  destruct (key_eqb_spec j k') as [->|Hj]; simpl.
  - now rewrite (key_eqb_neq k k') by congruence.
  - destruct (key_eqb k k'); [reflexivity|exact IH].
Qed.


Lemma dict_mem_update (j : key) (v : value) (d : dict) :
  dict_mem k (dict_update j v d) = dict_mem k d.
Proof.
  unfold dict_mem, assoc_mem.
  change (assoc_get key_eqb) with dict_get.
  change (assoc_update key_eqb) with dict_update.
  induction d as [|[k' v'] d IH]; simpl; [reflexivity|].
  destruct (key_eqb_spec j k') as [->|Hj]; simpl.
  - destruct (key_eqb k k'); reflexivity.
  - destruct (key_eqb k k'); [reflexivity|exact IH].
Qed.

End DictFacts.



(** ** Evaluating the object loops on symbolic names *)

Ltac unfold_dict :=
  unfold dict_mem, dict_get, dict_set, dict_update, dict_del,
         smem, sget, sset, assoc_set, assoc_mem,
         ObjectType._validate_property, ObjectType._validate_not_set,
         ObjectType.required_if_hit, ObjectType.required_if_not_hit,
         ObjectType.unserialize, ObjectType.validate, ObjectType.serialize,
         ObjectType.unknown_key, isinstance, getattr, conflicting, optional in *.

(** Unfold, compute, and rewrite with the equations at hand until nothing
    moves. *)
Ltac run :=
  repeat (progress
    (cbn; unfold_dict; cbn;
     repeat first
       [ rewrite String.eqb_refl
       | rewrite key_eqb_refl
       | match goal with
         | H : ?l = _ |- context [?l] => rewrite H
         end ])).

(** ** Union members are tried in declaration order *)

(** When the key of every member bound to class [c] is ["a"], encoding an
    instance of [c] goes through the member registered under ["a"]. *)
Lemma serialize_types_first_match
      (u : OneOfStringType.t) (member : ObjectType.t) (c : string)
      (attrs : list (string * value)) (p : path)
      (items : list (string * ObjectType.t)) :
  sget "a" items = Some member ->
  PyClass.name (ObjectType.cls member) = c ->
  (forall k o, In (k, o) items -> PyClass.name (ObjectType.cls o) = c -> k = "a") ->
  OneOfStringType.serialize_types u items (VObj [c] attrs) p
  = OneOfStringType.serialize_types u [("a", member)] (VObj [c] attrs) p.
Proof.
  intros Hget Hc Hkey. induction items as [|[k o] items IH]; [discriminate|].
  cbn [OneOfStringType.serialize_types isinstance existsb].
  rewrite Hc, String.eqb_refl. cbn [orb].
  unfold sget in Hget. cbn [assoc_get] in Hget.
  destruct (String.eqb_spec (PyClass.name (ObjectType.cls o)) c) as [Ho|Ho]; cbn [orb].
  - assert (k = "a") as -> by (apply (Hkey k o); [now left|exact Ho]).
    cbn [String.eqb Ascii.eqb Bool.eqb] in Hget. injection Hget as ->. reflexivity.
  - destruct (String.eqb_spec "a" k) as [<-|Hk].
    + injection Hget as ->. contradiction.
    + rewrite IH; [|exact Hget|].
      * cbn [OneOfStringType.serialize_types isinstance existsb].
        rewrite Hc, String.eqb_refl. reflexivity.
      * intros k' o' Hin. apply Hkey. now right.
Qed.

(** ** Wrapping at the schema boundary *)

Lemma wrap_input_not_constraint {A : Type} (r : res A) :
  raises_constraint (SchemaType.wrap_input r) = false.
Proof. destruct r as [a|[]]; reflexivity. Qed.

Lemma wrap_output_not_constraint {A : Type} (r : res A) :
  raises_constraint (SchemaType.wrap_output r) = false.
Proof. destruct r as [a|[]]; reflexivity. Qed.

Lemma bind_not_constraint {A B : Type} (c : res A) (k : A -> res B) :
  raises_constraint c = false ->
  (forall a, raises_constraint (k a) = false) ->
  raises_constraint (bind c k) = false.
Proof. destruct c; simpl; auto. Qed.

(** [unserialize_input] never lets a ConstraintException through. *)
Lemma unserialize_input_wraps (self : SchemaType.t) (step_id : string) (data : value) :
  raises_constraint (fst (SchemaType.unserialize_input self step_id data)) = false.
Proof.
  unfold SchemaType.unserialize_input, SchemaType.find_step, SchemaType._unserialize_input.
  destruct (sget step_id (SchemaType.steps self)) as [step|]; [|reflexivity].
  destruct (AbstractType.unserialize (StepType.input step) data []) as [r d].
  apply wrap_input_not_constraint.
Qed.

(** [serialize_output] never lets a ConstraintException through. *)
Lemma serialize_output_wraps (self : SchemaType.t) (step_id output_id : string)
      (output_data : value) :
  raises_constraint (SchemaType.serialize_output self step_id output_id output_data)
  = false.
Proof.
  unfold SchemaType.serialize_output, SchemaType.find_step, SchemaType._serialize_output.
  destruct (sget step_id (SchemaType.steps self)) as [step|]; [|reflexivity].
  apply wrap_output_not_constraint.
Qed.

(** A step called with both validations skipped raises a ConstraintException
    only if its handler does. *)
Lemma call_skipping_not_constraint (step : StepType.t) (params : value) :
  raises_constraint (StepType._handler step params) = false ->
  raises_constraint (StepType.call step params true true) = false.
Proof.
  intros Hh. unfold StepType.call. cbn [bind].
  apply bind_not_constraint; [exact Hh|]. intros result.
  apply bind_not_constraint.
  { destruct result; reflexivity. }
  intros [|output_id [|output_data [|]]]; try reflexivity.
  apply bind_not_constraint.
  - unfold StepType.find_output. destruct (hashable output_id); [|reflexivity].
    destruct output_id; try reflexivity.
    destruct (sget s (StepType.outputs step)); reflexivity.
  - intros [id output]. reflexivity.
Qed.

(** [__call__] with serialization wraps every ConstraintException of decode
    and encode; only the handler could raise a bare one. *)
Lemma call_serializing_wraps (self : SchemaType.t) (step_id : string) (data : value) :
  (forall step params, sget step_id (SchemaType.steps self) = Some step ->
     raises_constraint (StepType._handler step params) = false) ->
  raises_constraint (fst (SchemaType.call self step_id data false)) = false.
Proof.
  intros Hh. unfold SchemaType.call, SchemaType.find_step.
  destruct (sget step_id (SchemaType.steps self)) as [step|] eqn:Hs; [|reflexivity].
  unfold SchemaType._unserialize_input.
  destruct (AbstractType.unserialize (StepType.input step) data []) as [r d].
  cbn [fst]. apply bind_not_constraint; [apply wrap_input_not_constraint|].
  intros input_param. apply bind_not_constraint.
  - apply call_skipping_not_constraint. now apply Hh.
  - intros [output_id output_data]. apply bind_not_constraint.
    + apply wrap_output_not_constraint.
    + reflexivity.
Qed.

(** ** Strings *)

Lemma append_nil_r (s : string) : (s ++ EmptyString)%string = s.
Proof. induction s as [|c s IH]; cbn; [reflexivity|now rewrite IH]. Qed.

Lemma append_assoc (a b c : string) : ((a ++ b) ++ c)%string = (a ++ b ++ c)%string.
Proof. induction a as [|x a IH]; cbn; [reflexivity|now rewrite IH]. Qed.

Lemma concat_contains (sep k : string) (l : list string) :
  In k l -> contains k (String.concat sep l).
Proof.
  induction l as [|x r IH]; [intros []|].
  intros [->|Hin].
  - destruct r as [|y r]; cbn [String.concat].
    + exists EmptyString, EmptyString. cbn. now rewrite append_nil_r.
    + exists EmptyString, (sep ++ String.concat sep (y :: r))%string. reflexivity.
  - destruct r as [|y r]; [destruct Hin|].
    destruct (IH Hin) as (a & b & E).
    exists (x ++ sep ++ a)%string, b.
    change (String.concat sep (x :: y :: r))
      with (x ++ sep ++ String.concat sep (y :: r))%string.
    rewrite E. now rewrite !append_assoc.
Qed.

Lemma contains_wrap (k a b s : string) : contains k s -> contains k (a ++ s ++ b)%string.
Proof.
  intros (x & y & ->). exists (a ++ x)%string, (y ++ b)%string.
  now rewrite !append_assoc.
Qed.

(** ** Which decodes leave the caller's data alone *)







(** ** A wire key whose value is null *)

Section NullKey.
Variable k : string.









End NullKey.

(** ** Object encode against object validate *)

(** C1.  The claim is that whenever [validate] of an object node raises a
    ConstraintError, for instance because two properties that conflict are
    both set, [serialize] raises one too.  On [xy_object], where [X] declares
    a conflict with [Y], a value with both set is refused by [validate] with
    "Field conflicts with Y" and is encoded by [serialize] into a mapping with
    both keys: [serialize] runs the requiredness checks of
    [_validate_property] but has no conflict check. *)
Theorem C1_serialize_has_no_conflict_check :
  ObjectType.validate xy_object (xy (VInt 1) (VInt 2)) []
    = Raise (ConstraintException [KStr "X"] "Field conflicts with Y")
  /\ ObjectType.serialize xy_object (xy (VInt 1) (VInt 2)) []
    = Ok (VDict [(KStr "X", VInt 1); (KStr "Y", VInt 2)]).
Proof. split; reflexivity. Qed.

(** ** The requiredness matrix of [required_if] *)

(** On a host object, [_validate_not_set] takes a sibling for set when its
    attribute is [None]: with [A] and [B] both unset, [validate] raises for
    [A], whatever the two names and types are. *)
Lemma validate_required_if_both_unset
      (c : PyClass.t) (a b : string) (ta tb : AbstractType.t)
      (mro : list string) (attrs : list (string * value)) (p : path) :
  isinstance (VObj mro attrs) (PyClass.name c) = true ->
  sget a attrs = Some VNone ->
  sget b attrs = Some VNone ->
  ObjectType.validate
    (ObjectType.Build c
       [ (a, PropertyType.Build ta false [b] [] [] EmptyString);
         (b, optional tb) ])
    (VObj mro attrs) p
  = Raise (ConstraintException (p ++ [KStr a])
             ("This field is required because '" ++ b ++ "' is set")).
Proof.
  intros Hi Ha Hb. unfold ObjectType.validate.
  cbn [ObjectType.cls ObjectType.properties]. rewrite Hi.
  cbn [ObjectType.validate_collect PropertyType.field_id
       PropertyType.field_override String.eqb].
  unfold ObjectType._validate_property.
  cbn [getattr]. rewrite Ha.
  cbn [bind ObjectType.properties]. unfold sget at 1.
  cbn [assoc_get]. rewrite String.eqb_refl.
  cbn [bind is_none]. unfold ObjectType._validate_not_set.
  cbn [PropertyType.required PropertyType.required_if bind find].
  unfold ObjectType.required_if_hit at 1.
  cbn [ObjectType.in_dict attr_none orb]. rewrite Hb. reflexivity.
Qed.

(** C2.  The claim is the matrix for [A] with [required_if=[B]]: both
    omitted passes, [B] without [A] fails, both supplied passes, for decode
    and for validate alike.  [unserialize] follows it.  [validate] follows it
    in two cells and raises "This field is required because 'B' is set" in
    the third, where neither [A] nor [B] is set. *)
Theorem C2_required_if_matrix :
  fst (ObjectType.unserialize ab_object (VDict []) [])
    = Ok (ab VNone VNone)
  /\ fst (ObjectType.unserialize ab_object (VDict [(KStr "B", VInt 1)]) [])
    = Raise (ConstraintException [KStr "A"]
               "This field is required because 'B' is set")
  /\ fst (ObjectType.unserialize ab_object
            (VDict [(KStr "A", VInt 2); (KStr "B", VInt 1)]) [])
    = Ok (ab (VInt 2) (VInt 1))
  /\ ObjectType.validate ab_object (ab VNone VNone) []
    = Raise (ConstraintException [KStr "A"]
               "This field is required because 'B' is set")
  /\ raises_constraint (ObjectType.validate ab_object (ab VNone (VInt 1)) []) = true
  /\ ObjectType.validate ab_object (ab (VInt 2) (VInt 1)) [] = Ok tt.
Proof. repeat split; reflexivity. Qed.

(** ** Conflicts *)

(** C3.  An object node with two optional properties [x] and [y], where [x]
    declares [conflicts=[y]] and [y] declares nothing, in either order of
    declaration: a mapping with only [x] or only [y] is decoded and handed to
    the constructor, a typed value with only one of them set validates, and
    with both supplied decode and validate raise a ConstraintError at [x]. *)
Theorem C3_conflicts
        (c : PyClass.t) (x y : string) (tx ty : AbstractType.t) (x_first : bool)
        (p : path) (vx vy rx ry sx sy wx wy : value) (mro : list string) :
  x <> y ->
  is_none vx = false -> is_none vy = false ->
  AbstractType.unserialize tx vx (p ++ [KStr x]) = (Ok rx, sx) ->
  AbstractType.unserialize ty vy (p ++ [KStr y]) = (Ok ry, sy) ->
  is_none wx = false -> is_none wy = false ->
  AbstractType.validate tx wx (p ++ [KStr x]) = Ok tt ->
  AbstractType.validate ty wy (p ++ [KStr y]) = Ok tt ->
  isinstance (VObj mro []) (PyClass.name c) = true ->
  let o := conflict_object c x y tx ty x_first in
  let conflict :=
    ConstraintException (p ++ [KStr x])
      ("Field conflicts '" ++ y ++ "', set one of the two, not both") in
  ObjectType.unserialize o (VDict [(KStr x, vx)]) p
    = (PyClass.init c [(x, rx)], VDict [(KStr x, sx)])
  /\ ObjectType.unserialize o (VDict [(KStr y, vy)]) p
    = (PyClass.init c [(y, ry)], VDict [(KStr y, sy)])
  /\ fst (ObjectType.unserialize o (VDict [(KStr x, vx); (KStr y, vy)]) p)
    = Raise conflict
  /\ fst (ObjectType.unserialize o (VDict [(KStr y, vy); (KStr x, vx)]) p)
    = Raise conflict
  /\ ObjectType.validate o (VObj mro [(x, wx); (y, VNone)]) p = Ok tt
  /\ ObjectType.validate o (VObj mro [(x, VNone); (y, wy)]) p = Ok tt
  /\ ObjectType.validate o (VObj mro [(x, wx); (y, wy)]) p
    = Raise (ConstraintException (p ++ [KStr x]) ("Field conflicts with " ++ y)).
Proof.
  intros Hxy Hvx Hvy Hux Huy Hwx Hwy Hcx Hcy Hi o conflict.
  assert (Exy : String.eqb x y = false) by now apply String.eqb_neq.
  assert (Eyx : String.eqb y x = false) by (apply String.eqb_neq; congruence).
  subst o conflict. unfold conflict_object, ObjectType.validate, ObjectType.unknown_key.
  cbn [isinstance] in Hi.
  destruct x_first; repeat split; run.
  all: try reflexivity.
Qed.

Lemma C3_conflicts_witness :
  fst (ObjectType.unserialize (conflict_object (dataclass "XY" [("X", Some VNone); ("Y", Some VNone)]) "X" "Y" any_int any_int false)
         (VDict [(KStr "X", VInt 1); (KStr "Y", VInt 2)]) [])
    = Raise (ConstraintException [KStr "X"]
               "Field conflicts 'Y', set one of the two, not both")
  /\ ObjectType.validate (conflict_object (dataclass "XY" [("X", Some VNone); ("Y", Some VNone)]) "X" "Y" any_int any_int false)
       (VObj ["XY"] [("X", VInt 1); ("Y", VNone)]) [] = Ok tt.
Proof.
  pose proof (C3_conflicts
                (dataclass "XY" [("X", Some VNone); ("Y", Some VNone)])
                "X" "Y" any_int any_int false []
                (VInt 1) (VInt 2) (VInt 1) (VInt 2) (VInt 1) (VInt 2)
                (VInt 1) (VInt 2) ["XY"]
                ltac:(discriminate) eq_refl eq_refl eq_refl eq_refl
                eq_refl eq_refl eq_refl eq_refl eq_refl) as H.
  cbv zeta in H.
  destruct H as (_ & _ & Hboth & _ & Hx & _).
  split; [exact Hboth|exact Hx].
Defined.

(** ** A union whose member does not declare the discriminator *)

(** C4.  A one-of string union with the discriminator field ["_type"], whose
    member under ["a"] declares the single property [f] and no ["_type"]:
    decoding [{"_type": "a", "f": 1}] is the member decoding [{"f": 1}], it
    succeeds and leaves the caller's mapping without ["_type"], and encoding
    the decoded value gives a mapping with ["f": 1] and ["_type": "a"]. *)
Theorem C4_union_without_declared_tag
        (u : OneOfStringType.t) (c : string) (tf : AbstractType.t) (required : bool)
        (required_if required_if_not : list string) (p : path) (v s : value) :
  OneOfStringType.discriminator_field_name u = "_type" ->
  sget "a" (OneOfStringType.types u)
    = Some (f_member c tf required required_if required_if_not) ->
  (forall k o, In (k, o) (OneOfStringType.types u) ->
               PyClass.name (ObjectType.cls o) = c -> k = "a") ->
  AbstractType.unserialize tf (VInt 1) (p ++ [KStr "f"]) = (Ok v, s) ->
  is_none v = false ->
  AbstractType.serialize tf v [KStr "f"] = Ok (VInt 1) ->
  OneOfStringType.unserialize u
      (VDict [(KStr "_type", VStr "a"); (KStr "f", VInt 1)]) p
    = ObjectType.unserialize (f_member c tf required required_if required_if_not)
        (VDict [(KStr "f", VInt 1)]) p
  /\ OneOfStringType.unserialize u
      (VDict [(KStr "_type", VStr "a"); (KStr "f", VInt 1)]) p
    = (Ok (VObj [c] [("f", v)]), VDict [(KStr "f", s)])
  /\ forall p', OneOfStringType.serialize u (VObj [c] [("f", v)]) p'
    = Ok (VDict [(KStr "f", VInt 1); (KStr "_type", VStr "a")]).
Proof.
  intros Hd Hget Hkey Hu Hv Hs.
  assert (Hstrip :
    OneOfStringType.unserialize u
      (VDict [(KStr "_type", VStr "a"); (KStr "f", VInt 1)]) p
    = ObjectType.unserialize (f_member c tf required required_if required_if_not)
        (VDict [(KStr "f", VInt 1)]) p).
  { unfold OneOfStringType.unserialize. rewrite Hd. cbn [dict_get assoc_get key_eqb String.eqb Ascii.eqb Bool.eqb].
    unfold dict_get. cbn [assoc_get key_eqb String.eqb Ascii.eqb Bool.eqb].
    rewrite Hget. reflexivity. }
  split; [exact Hstrip|]. split.
  - rewrite Hstrip. unfold f_member, ObjectType.unknown_key. run. reflexivity.
  - intros p'. unfold OneOfStringType.serialize.
    rewrite (serialize_types_first_match u _ c _ p' _ Hget eq_refl Hkey).
    unfold f_member, ObjectType.serialize. run. reflexivity.
Qed.

Lemma C4_union_without_declared_tag_witness :
  OneOfStringType.unserialize a_union
      (VDict [(KStr "_type", VStr "a"); (KStr "f", VInt 1)]) []
    = (Ok (VObj ["F"] [("f", VInt 1)]), VDict [(KStr "f", VInt 1)])
  /\ OneOfStringType.serialize a_union (VObj ["F"] [("f", VInt 1)]) []
    = Ok (VDict [(KStr "f", VInt 1); (KStr "_type", VStr "a")]).
Proof.
  assert (Hkey : forall k o, In (k, o) (OneOfStringType.types a_union) ->
                   PyClass.name (ObjectType.cls o) = "F" -> k = "a").
  { intros k o [H|[]] _. now injection H as <- _. }
  pose proof (C4_union_without_declared_tag a_union "F" any_int true [] [] []
                (VInt 1) (VInt 1) eq_refl eq_refl Hkey eq_refl eq_refl eq_refl)
    as (_ & Hdec & Henc).
  split; [exact Hdec|exact (Henc [])].
Defined.

(** ** ConstraintError at the schema boundary *)

(** C5.  The claim is that no bare ConstraintError leaves the dispatch layer.
    [bad_schema] has a step whose handler returns [Out(x=-1)] against an
    output schema with [x >= 0].  With [skip_serialization] the output is
    checked by a [validate] call outside any [try], and the
    ConstraintException reaches the caller as it is; without it the same
    defect arrives as InvalidOutputException. *)
Theorem C5_skip_serialization_leaks_constraint :
  SchemaType.call bad_schema "run" (VDict []) true
    = (Raise (ConstraintException [KStr "x"] "Must be at least 0"), VDict [])
  /\ SchemaType.call bad_schema "run" (VDict []) false
    = (Raise (InvalidOutputException [KStr "x"] "Must be at least 0"), VDict []).
Proof. split; reflexivity. Qed.

(** ** Path and reason of a ConstraintError *)

(** C6.  The claim is that every ConstraintError carries the path of the
    offending value and a reason, a map with too few or too many entries
    included.  [MapType._validate] raises [ConstraintException()] for both
    bounds, so decode, validate and encode of such a map raise an error with
    the empty path and the empty message, wherever the map occurs. *)
Theorem C6_map_count_error_has_no_path_and_no_reason
        (self : MapType.t) (entries : dict) (p : path) :
  (exists m, MapType.min self = Some m /\ (Z.of_nat (length entries) < m)%Z)
  \/ (exists m, MapType.max self = Some m /\ (m < Z.of_nat (length entries))%Z) ->
  MapType.unserialize self (VDict entries) p
    = (Raise (ConstraintException [] EmptyString), VDict entries)
  /\ MapType.validate self (VDict entries) p
    = Raise (ConstraintException [] EmptyString)
  /\ MapType.serialize self (VDict entries) p
    = Raise (ConstraintException [] EmptyString).
Proof.
  intros H.
  assert (Hv : MapType._validate self (VDict entries) p
               = Raise (ConstraintException [] EmptyString)).
  { unfold MapType._validate.
    destruct H as [(m & Hm & Hlt)|(m & Hm & Hlt)]; rewrite Hm.
    - apply Z.ltb_lt in Hlt. rewrite Hlt. reflexivity.
    - apply Z.ltb_lt in Hlt. rewrite Hlt.
      destruct (MapType.min self) as [m'|]; [|reflexivity].
      destruct (Z.of_nat (length entries) <? m')%Z; reflexivity. }
  unfold MapType.unserialize, MapType.validate, MapType.serialize.
  rewrite Hv. repeat split; reflexivity.
Qed.

Lemma C6_map_count_error_witness :
  MapType.unserialize nonempty_map (VDict []) [KStr "m"]
    = (Raise (ConstraintException [] EmptyString), VDict [])
  /\ MapType.validate nonempty_map (VDict []) [KStr "m"]
    = Raise (ConstraintException [] EmptyString)
  /\ MapType.serialize nonempty_map (VDict []) [KStr "m"]
    = Raise (ConstraintException [] EmptyString).
Proof.
  apply (C6_map_count_error_has_no_path_and_no_reason nonempty_map [] [KStr "m"]).
  left. exists 1%Z. split; reflexivity.
Defined.

(** ** Scopes *)

(** C7.  The claim is that a scope delegates its three operations to the
    root object with the path extended by the root's name.  The source takes
    that name from [root_object.__name__], an attribute that an [ObjectType]
    instance does not have: whenever the root is in the table, each
    operation raises AttributeError and the root object's own operation is
    never run. *)
Theorem C7_scope_raises_before_delegating
        (self : ScopeType.t) (root_object : ObjectType.t) (data : value) (p : path) :
  sget (ScopeType.root self) (ScopeType.objects self) = Some root_object ->
  ScopeType.unserialize self data p = (Raise AttributeError, data)
  /\ ScopeType.validate self data p = Raise AttributeError
  /\ ScopeType.serialize self data p = Raise AttributeError.
Proof.
  intros H.
  unfold ScopeType.unserialize, ScopeType.validate, ScopeType.serialize,
    ScopeType.lookup.
  rewrite H. repeat split; reflexivity.
Qed.

Lemma C7_scope_raises_witness :
  ScopeType.unserialize a_scope (VDict []) [] = (Raise AttributeError, VDict [])
  /\ ObjectType.unserialize (ObjectType.Build (dataclass "A" []) []) (VDict []) [KStr "A"]
     = (Ok (VObj ["A"] []), VDict []).
Proof.
  split.
  - exact (proj1 (C7_scope_raises_before_delegating a_scope
                    (ObjectType.Build (dataclass "A" []) []) (VDict []) [] eq_refl)).
  - reflexivity.
Defined.

(** ** The discriminator of a one-of decode *)

(** C8, as the claim states it: an integer discriminator would be turned
    into a string and matched.  [one_union] registers the key ["1"]; the
    integer [1] is rejected with "String required, int found", where the
    string ["1"] selects the member. *)
Lemma C8_integer_discriminator_is_rejected :
  OneOfStringType.unserialize one_union
      (VDict [(KStr "_type", VInt 1); (KStr "f", VInt 1)]) []
    = (Raise (ConstraintException [KStr "_type"] "String required, int found"),
       VDict [(KStr "_type", VInt 1); (KStr "f", VInt 1)])
  /\ fst (OneOfStringType.unserialize one_union
            (VDict [(KStr "_type", VStr "1"); (KStr "f", VInt 1)]) [])
    = Ok (VObj ["F"] [("f", VInt 1)]).
Proof. split; reflexivity. Qed.

(** C8, amended.  One-of decode does not coerce the discriminator: a value
    that is no string raises "String required, <type> found" at the path of
    the discriminator field, and a string that matches no registered key
    raises an error at the same path whose message lists every valid key.
    In both cases the caller's mapping is left as it was. *)
Theorem C8_discriminator_is_not_coerced
        (u : OneOfStringType.t) (entries : dict) (p : path) (v : value) :
  dict_get (KStr (OneOfStringType.discriminator_field_name u)) entries = Some v ->
  match v with
  | VStr s => sget s (OneOfStringType.types u) = None
  | _ => True
  end ->
  exists msg,
    OneOfStringType.unserialize u (VDict entries) p
    = (Raise (ConstraintException
                (p ++ [KStr (OneOfStringType.discriminator_field_name u)]) msg),
       VDict entries)
    /\ match v with
       | VStr s =>
           msg = ("Invalid value for field: '" ++ s ++ "' expected one of: '"
                    ++ String.concat "', '" (map fst (OneOfStringType.types u))
                    ++ "'")%string
           /\ Forall (fun k => contains k msg) (map fst (OneOfStringType.types u))
       | _ => msg = ("String required, " ++ type_name v ++ " found")%string
       end.
Proof.
  intros Hget Hv. unfold OneOfStringType.unserialize. rewrite Hget.
  destruct v; try (eexists; split; reflexivity).
  rewrite Hv. eexists. split; [reflexivity|]. split; [reflexivity|].
  apply Forall_forall. intros k Hk.
  pose proof (contains_wrap k
                ("Invalid value for field: '" ++ s ++ "' expected one of: '")%string
                "'" _ (concat_contains "', '" k _ Hk)) as H.
  now rewrite !append_assoc in H.
Qed.

Lemma C8_discriminator_is_not_coerced_witness :
  exists msg,
    OneOfStringType.unserialize a_union
        (VDict [(KStr "_type", VStr "b"); (KStr "f", VInt 1)]) []
    = (Raise (ConstraintException [KStr "_type"] msg),
       VDict [(KStr "_type", VStr "b"); (KStr "f", VInt 1)])
    /\ msg = "Invalid value for field: 'b' expected one of: 'a'"
    /\ Forall (fun k => contains k msg) ["a"].
Proof.
  exact (C8_discriminator_is_not_coerced a_union
           [(KStr "_type", VStr "b"); (KStr "f", VInt 1)] [] (VStr "b")
           eq_refl eq_refl).
Defined.

(** ** What decode does to the caller's data *)




(** ** Null values in a wire mapping *)




(** * Further properties of the type nodes *)

(** ** Leaf types *)

Lemma bounds_ok_iff (lo hi : option Z) (z : Z) (e1 e2 : Z -> exn) :
  (match lo with
   | Some m => if (z <? m)%Z then Raise (e1 m) else Ok tt
   | None => Ok tt
   end ;;;
   match hi with
   | Some m => if (m <? z)%Z then Raise (e2 m) else Ok tt
   | None => Ok tt
   end) = Ok tt <-> within lo hi z.
Proof.
  unfold within. destruct lo as [a|], hi as [b|]; cbn.
  all: try (destruct (Z.ltb_spec z a) as [Ha|Ha]; cbn).
  all: try (destruct (Z.ltb_spec b z) as [Hb|Hb]; cbn).
  all: split;
    [ intros Heq; try discriminate Heq; split; intros m [= <-]; lia
    | intros [H1 H2]; try reflexivity;
      try (specialize (H1 _ eq_refl)); try (specialize (H2 _ eq_refl)); lia ].
Qed.

(** X1.  [BoolType.validate] accepts native booleans and nothing else, while
    [BoolType.unserialize], when it succeeds, returns a native boolean, which
    [serialize] hands back as it is. *)
Theorem X1_bool_validate_is_strict (data : value) (p : path) :
  (BoolType.validate data p = Ok tt <-> exists b, data = VBool b)
  /\ (forall r, fst (BoolType.unserialize data p) = Ok r ->
        exists b, r = VBool b /\ BoolType.serialize r p = Ok r).
Proof.
  split.
  - split.
    + destruct data; try discriminate. eauto.
    + intros [b ->]. reflexivity.
  - intros r. unfold BoolType.unserialize. cbn [fst].
    destruct data; try discriminate.
    + intros [= <-]. eauto.
    + destruct (z =? 0)%Z; [intros [= <-]; eauto|].
      destruct (z =? 1)%Z; [intros [= <-]; eauto|discriminate].
    + destruct (existsb (String.eqb (lower s)) BoolType.truthy);
        [intros [= <-]; eauto|].
      destruct (existsb (String.eqb (lower s)) BoolType.falsy);
        [intros [= <-]; eauto|discriminate].
Qed.

Lemma X1_bool_validate_is_strict_witness :
  BoolType.validate (VInt 1) [] <> Ok tt
  /\ exists b, VBool true = VBool b /\ BoolType.serialize (VBool true) [] = Ok (VBool true).
Proof.
  destruct (X1_bool_validate_is_strict (VInt 1) []) as [Hv Hd].
  split.
  - intros H. apply Hv in H. destruct H as [b H]. discriminate H.
  - exact (Hd (VBool true) eq_refl).
Defined.

(** X2.  Two strings that differ only in the case of their letters decode to
    the same boolean. *)
Theorem X2_bool_strings_ignore_case (s t : string) (p : path) (r : value) :
  lower s = lower t ->
  fst (BoolType.unserialize (VStr s) p) = Ok r ->
  fst (BoolType.unserialize (VStr t) p) = Ok r.
Proof.
  intros H. unfold BoolType.unserialize. cbn [fst]. rewrite H.
  destruct (existsb (String.eqb (lower t)) BoolType.truthy); [trivial|].
  destruct (existsb (String.eqb (lower t)) BoolType.falsy); [trivial|discriminate].
Qed.

Lemma X2_bool_strings_ignore_case_witness :
  fst (BoolType.unserialize (VStr "yes") []) = Ok (VBool true).
Proof.
  exact (X2_bool_strings_ignore_case "YES" "yes" [] (VBool true) eq_refl eq_refl).
Defined.

(** X3.  [IntType.validate] accepts exactly the integers (booleans count as
    0 and 1) that lie between [min] and [max], both bounds included. *)
Theorem X3_int_validate_bounds (self : IntType.t) (data : value) (p : path) :
  IntType.validate self data p = Ok tt
  <-> exists z, as_int data = Some z /\ within (IntType.min self) (IntType.max self) z.
Proof.
  unfold IntType.validate. destruct (as_int data) as [z|].
  - rewrite bounds_ok_iff. split; [eauto|]. now intros (z' & [= <-] & H).
  - split; [discriminate|]. now intros (z & H & _).
Qed.

Lemma X3_int_validate_bounds_witness :
  IntType.validate (IntType.Build (Some 0%Z) (Some 5%Z)) (VInt 5) [] = Ok tt.
Proof.
  apply (proj2 (X3_int_validate_bounds (IntType.Build (Some 0%Z) (Some 5%Z)) (VInt 5) [])).
  exists 5%Z. split; [reflexivity|].
  split; intros m H; injection H as <-; discriminate.
Defined.

(** X4.  For [IntType], a value that validates is encoded and decoded to
    itself, and whatever [unserialize] returns validates, is encoded to
    itself and is decoded to itself again. *)
Theorem X4_int_round_trip (self : IntType.t) (data : value) (p : path) :
  (IntType.validate self data p = Ok tt ->
     IntType.serialize self data p = Ok data
     /\ IntType.unserialize self data p = (Ok data, data))
  /\ (forall r, fst (IntType.unserialize self data p) = Ok r ->
        IntType.validate self r p = Ok tt
        /\ IntType.serialize self r p = Ok r
        /\ IntType.unserialize self r p = (Ok r, r)).
Proof.
  assert (Hv : forall v, IntType.validate self v p = Ok tt ->
                 IntType.serialize self v p = Ok v
                 /\ IntType.unserialize self v p = (Ok v, v)).
  { intros v H. unfold IntType.serialize, IntType.unserialize. rewrite H.
    split; [reflexivity|].
    destruct v; try reflexivity.
    unfold IntType.validate in H. discriminate H. }
  split; [apply Hv|].
  intros r Hr.
  assert (Hval : IntType.validate self r p = Ok tt).
  { unfold IntType.unserialize in Hr. cbn [fst] in Hr.
    destruct data;
      try (destruct (IntType.validate self _ p) as [[]|e] eqn:E in Hr;
           [injection Hr as <-; exact E|discriminate Hr]).
    destruct (int_of_str s) as [z|]; [|discriminate Hr].
    destruct (IntType.validate self (VInt z) p) as [[]|e] eqn:E;
      [injection Hr as <-; exact E|discriminate Hr]. }
  split; [exact Hval|]. now apply Hv.
Qed.

Lemma X4_int_round_trip_witness :
  IntType.validate (IntType.Build (Some 0%Z) None) (VInt 12) [] = Ok tt
  /\ IntType.serialize (IntType.Build (Some 0%Z) None) (VInt 12) [] = Ok (VInt 12)
  /\ IntType.unserialize (IntType.Build (Some 0%Z) None) (VInt 12) []
     = (Ok (VInt 12), VInt 12).
Proof.
  exact (proj2 (X4_int_round_trip (IntType.Build (Some 0%Z) None) (VStr "12") [])
           (VInt 12) eq_refl).
Defined.

(** X5.  [StringType.validate] accepts exactly the native strings whose
    length lies between [min] and [max], both included, and which the
    pattern, if there is one, matches. *)
Theorem X5_string_validate_rules (self : StringType.t) (data : value) (p : path) :
  StringType.validate self data p = Ok tt
  <-> exists s, data = VStr s
      /\ within (StringType.min self) (StringType.max self) (Z.of_nat (String.length s))
      /\ (forall re, StringType.pattern self = Some re -> pattern_match re s = true).
Proof.
  unfold StringType.validate, within. split.
  - destruct data; try discriminate. intros H. exists s. split; [reflexivity|].
    destruct (StringType.min self) as [a|], (StringType.max self) as [b|],
             (StringType.pattern self) as [re|]; cbn in H.
    all: try (destruct (Z.ltb_spec (Z.of_nat (String.length s)) a); [discriminate H|]).
    all: cbn in H.
    all: try (destruct (Z.ltb_spec b (Z.of_nat (String.length s))); [discriminate H|]).
    all: cbn in H.
    all: try (destruct (pattern_match re s) eqn:Hm; [|discriminate H]).
    all: repeat split; intros m [= <-]; try lia; assumption.
  - intros (s & -> & [H1 H2] & H3).
    destruct (StringType.min self) as [a|]; cbn.
    1: specialize (H1 _ eq_refl);
       destruct (Z.ltb_spec (Z.of_nat (String.length s)) a); [lia|]; cbn.
    all: destruct (StringType.max self) as [b|]; cbn.
    all: try (specialize (H2 _ eq_refl);
              destruct (Z.ltb_spec b (Z.of_nat (String.length s))); [lia|]; cbn).
    all: destruct (StringType.pattern self) as [re|]; [|reflexivity].
    all: now rewrite (H3 re eq_refl).
Qed.

Lemma X5_string_validate_rules_witness :
  StringType.validate (StringType.Build (Some 1%Z) (Some 3%Z) None) (VStr "abc") [] = Ok tt.
Proof.
  apply (proj2 (X5_string_validate_rules
                  (StringType.Build (Some 1%Z) (Some 3%Z) None) (VStr "abc") [])).
  exists "abc". split; [reflexivity|]. split.
  - split; intros m H; injection H as <-; discriminate.
  - intros re H. discriminate H.
Defined.

(** X6.  For [StringType], a value that validates is encoded and decoded to
    itself, and whatever [unserialize] returns (the decimal text, for an
    integer) validates, is encoded to itself and is decoded to itself
    again. *)
Theorem X6_string_round_trip (self : StringType.t) (data : value) (p : path) :
  (StringType.validate self data p = Ok tt ->
     StringType.serialize self data p = Ok data
     /\ StringType.unserialize self data p = (Ok data, data))
  /\ (forall r, fst (StringType.unserialize self data p) = Ok r ->
        StringType.validate self r p = Ok tt
        /\ StringType.serialize self r p = Ok r
        /\ StringType.unserialize self r p = (Ok r, r)).
Proof.
  assert (Hv : forall v, StringType.validate self v p = Ok tt ->
                 StringType.serialize self v p = Ok v
                 /\ StringType.unserialize self v p = (Ok v, v)).
  { intros v H. unfold StringType.serialize, StringType.unserialize.
    destruct v; try discriminate H. cbn [StringType.coerce]. now rewrite H. }
  split; [apply Hv|].
  intros r Hr. unfold StringType.unserialize in Hr. cbn [fst] in Hr.
  destruct (StringType.validate self (StringType.coerce data) p) as [[]|e] eqn:E;
    [|discriminate Hr].
  injection Hr as <-. split; [exact E|]. now apply Hv.
Qed.

Lemma X6_string_round_trip_witness :
  StringType.validate (StringType.Build None None None) (VStr "7") [] = Ok tt
  /\ StringType.serialize (StringType.Build None None None) (VStr "7") [] = Ok (VStr "7")
  /\ StringType.unserialize (StringType.Build None None None) (VStr "7") []
     = (Ok (VStr "7"), VStr "7").
Proof.
  exact (proj2 (X6_string_round_trip (StringType.Build None None None) (VInt 7) [])
           (VStr "7") eq_refl).
Defined.

(** ** Decimal text *)

Section DecimalText.
Local Open Scope Z_scope.

Lemma parse_digits_acc (d : Decimal.uint) :
  forall (acc : positive) (b : bool),
    parse_digits (uint_chars d) (Zpos acc) true
    = Some (Zpos (Pos.of_uint_acc d acc)).
Proof.
  unfold uint_chars.
  induction d; intros acc b; cbn [NilEmpty.string_of_uint list_ascii_of_string Pos.of_uint_acc];
    [reflexivity|..];
    match goal with
    | |- parse_digits (?c :: ?r) ?a _ = Some (Zpos (Pos.of_uint_acc _ ?n)) =>
        change (parse_digits (c :: r) a true)
          with (parse_digits r (10 * a + Z.of_nat (nat_of_ascii c - 48)) true);
        let k := eval vm_compute in (Z.of_nat (nat_of_ascii c - 48)) in
        change (Z.of_nat (nat_of_ascii c - 48)) with k;
        replace (10 * a + k) with (Zpos n) by lia;
        apply (IHd n true)
    end.
Qed.

Lemma parse_digits_zero (d : Decimal.uint) :
  forall b : bool,
    d <> Decimal.Nil \/ b = true ->
    parse_digits (uint_chars d) 0 b = Some (Z.of_N (Pos.of_uint d)).
Proof.
  unfold uint_chars.
  induction d; intros b Hb;
    cbn [NilEmpty.string_of_uint list_ascii_of_string Pos.of_uint].
  - destruct Hb as [Hb| ->]; [contradiction|reflexivity].
  - change (parse_digits (uint_chars d) 0 true = Some (Z.of_N (Pos.of_uint d))).
    apply IHd. now right.
  - exact (parse_digits_acc d 1 true).
  - exact (parse_digits_acc d 2 true).
  - exact (parse_digits_acc d 3 true).
  - exact (parse_digits_acc d 4 true).
  - exact (parse_digits_acc d 5 true).
  - exact (parse_digits_acc d 6 true).
  - exact (parse_digits_acc d 7 true).
  - exact (parse_digits_acc d 8 true).
  - exact (parse_digits_acc d 9 true).
Qed.

Lemma uint_chars_no_space (d : Decimal.uint) :
  Forall (fun c => is_space c = false) (uint_chars d).
Proof.
  unfold uint_chars.
  induction d; cbn [NilEmpty.string_of_uint list_ascii_of_string];
    constructor; try reflexivity; assumption.
Qed.

Lemma strip_no_space (l : list ascii) :
  Forall (fun c => is_space c = false) l -> strip l = l.
Proof.
  intros H. unfold strip.
  assert (Hl : forall l', Forall (fun c => is_space c = false) l' -> lstrip l' = l').
  { intros l' H'. destruct H' as [|c r Hc Hr]; [reflexivity|]. cbn. now rewrite Hc. }
  rewrite (Hl l H), (Hl (rev l)) by now apply Forall_rev.
  apply rev_involutive.
Qed.

Lemma int_of_str_of_uint (d : Decimal.uint) :
  d <> Decimal.Nil ->
  int_of_str (NilEmpty.string_of_uint d) = Some (Z.of_N (Pos.of_uint d)).
Proof.
  intros Hd. unfold int_of_str.
  fold (uint_chars d). rewrite (strip_no_space _ (uint_chars_no_space d)).
  pose proof (parse_digits_zero d false (or_introl Hd)) as H.
  destruct d; [contradiction|..]; exact H.
Qed.

Lemma int_of_str_of_Z (z : Z) : int_of_str (str_of_Z z) = Some z.
Proof.
  unfold str_of_Z. destruct z as [|p|p]; [reflexivity|..]; cbn [Z.to_int NilZero.string_of_int].
  - pose proof (DecimalPos.Unsigned.to_uint_nonnil p) as Hn.
    assert (E : NilZero.string_of_uint (Pos.to_uint p)
                = NilEmpty.string_of_uint (Pos.to_uint p))
      by (unfold NilZero.string_of_uint; destruct (Pos.to_uint p); [contradiction|..]; reflexivity).
    rewrite E, (int_of_str_of_uint _ Hn), DecimalPos.Unsigned.of_to. reflexivity.
  - pose proof (DecimalPos.Unsigned.to_uint_nonnil p) as Hn.
    assert (E : NilZero.string_of_uint (Pos.to_uint p)
                = NilEmpty.string_of_uint (Pos.to_uint p))
      by (unfold NilZero.string_of_uint; destruct (Pos.to_uint p); [contradiction|..]; reflexivity).
    rewrite E. unfold int_of_str.
    change (list_ascii_of_string (String "-" (NilEmpty.string_of_uint (Pos.to_uint p))))
      with ("-"%char :: uint_chars (Pos.to_uint p)).
    rewrite strip_no_space
      by (constructor; [reflexivity|apply uint_chars_no_space]).
    change (option_map Z.opp (parse_digits (uint_chars (Pos.to_uint p)) 0 false) = Some (Z.neg p)).
    rewrite (parse_digits_zero _ false (or_introl Hn)), DecimalPos.Unsigned.of_to.
    reflexivity.
Qed.
End DecimalText.

(** X7.  Decoding the decimal text of an integer with [IntType] gives what
    decoding the integer gives, so an integer that a [StringType] turned into
    text is read back as the same integer. *)
Theorem X7_int_reads_decimal_text (self : IntType.t) (z : Z) (p : path) :
  fst (IntType.unserialize self (VStr (str_of_Z z)) p)
    = fst (IntType.unserialize self (VInt z) p)
  /\ forall (st : StringType.t) (q : path) (r : value),
      fst (StringType.unserialize st (VInt z) q) = Ok r ->
      fst (IntType.unserialize self r p) = fst (IntType.unserialize self (VInt z) p).
Proof.
  assert (H : fst (IntType.unserialize self (VStr (str_of_Z z)) p)
              = fst (IntType.unserialize self (VInt z) p)).
  { unfold IntType.unserialize. cbn [fst]. rewrite int_of_str_of_Z.
    destruct (IntType.validate self (VInt z) p); reflexivity. }
  split; [exact H|].
  intros st q r Hr. unfold StringType.unserialize in Hr. cbn [fst StringType.coerce] in Hr.
  destruct (StringType.validate st (VStr (str_of_Z z)) q); [|discriminate Hr].
  injection Hr as <-. exact H.
Qed.

Lemma X7_int_reads_decimal_text_witness :
  fst (IntType.unserialize (IntType.Build None None) (VStr "-42") [])
  = Ok (VInt (-42)).
Proof.
  exact (proj2 (X7_int_reads_decimal_text (IntType.Build None None) (-42) [])
           (StringType.Build None None None) [] (VStr "-42") eq_refl).
Defined.

(** ** Lists *)

Lemma list_validate_ok_iff (self : ListType.t) (data : value) (p : path) :
  ListType._validate self data p = Ok tt
  <-> exists l, data = VList l
      /\ within (ListType.min self) (ListType.max self) (Z.of_nat (length l)).
Proof.
  unfold ListType._validate. destruct data; try (split; [discriminate|]).
  5:{ rewrite bounds_ok_iff. split; [eauto|]. now intros (l & [= <-] & H). }
  all: now intros (l & H & _).
Qed.

Lemma unserialize_items_ok (self : ListType.t) (p : path) (l : list value) :
  forall i l',
    ListType.unserialize_items self p i l = (None, l') ->
    length l' = length l
    /\ forall j x, nth_error l j = Some x ->
         exists y, nth_error l' j = Some y
           /\ fst (AbstractType.unserialize (ListType.items self) x
                     (ListType.item_path p (i + j))) = Ok y.
Proof.
  induction l as [|x r IH]; intros i l' H; cbn [ListType.unserialize_items] in H.
  - injection H as <-. split; [reflexivity|]. intros [|j] y Hy; discriminate Hy.
  - destruct (AbstractType.unserialize (ListType.items self) x (ListType.item_path p i))
      as [[y|e] x'] eqn:Hx; [|discriminate H].
    destruct (ListType.unserialize_items self p (S i) r) as [e r'] eqn:Hr.
    injection H as -> <-.
    destruct (IH (S i) r' Hr) as [Hlen Hnth].
    split; [cbn; now rewrite Hlen|].
    intros [|j] z Hz; cbn [nth_error] in *.
    + injection Hz as <-. exists y. rewrite Nat.add_0_r, Hx. now split.
    + destruct (Hnth j z Hz) as (w & Hw & Hd). exists w.
      rewrite Nat.add_succ_r. now split.
Qed.

(** X8.  A list decode that succeeds was given a list whose length is within
    [min] and [max], and returns a list of the same length whose item at
    each index is the decode of the raw item at that index, with the index
    appended to the path. *)
Theorem X8_list_decode_is_itemwise
        (self : ListType.t) (data : value) (p : path) (r : value) :
  fst (ListType.unserialize self data p) = Ok r ->
  exists l l',
    data = VList l /\ r = VList l'
    /\ length l' = length l
    /\ within (ListType.min self) (ListType.max self) (Z.of_nat (length l))
    /\ forall j x, nth_error l j = Some x ->
         exists y, nth_error l' j = Some y
           /\ fst (AbstractType.unserialize (ListType.items self) x
                     (ListType.item_path p j)) = Ok y.
Proof.
  unfold ListType.unserialize. destruct data; try discriminate.
  destruct (ListType.unserialize_items self p 0 items) as [[e|] l'] eqn:Hi;
    [discriminate|].
  cbn [fst]. destruct (ListType._validate self (VList l') p) as [[]|e] eqn:Hv;
    [|discriminate].
  intros [= <-]. destruct (unserialize_items_ok self p items 0 l' Hi) as [Hlen Hnth].
  apply list_validate_ok_iff in Hv. destruct Hv as (l0 & [= <-] & Hw).
  exists items, l'. rewrite <- Hlen. repeat split; try assumption; apply Hw.
Qed.

Lemma X8_list_decode_is_itemwise_witness :
  exists l l',
    VList [VStr "1"; VInt 2] = VList l /\ VList [VInt 1; VInt 2] = VList l'
    /\ length l' = length l.
Proof.
  destruct (X8_list_decode_is_itemwise int_list (VList [VStr "1"; VInt 2]) []
              (VList [VInt 1; VInt 2]) eq_refl)
    as (l & l' & H1 & H2 & H3 & _).
  exists l, l'. repeat split; assumption.
Defined.

Lemma validate_items_ok_iff (self : ListType.t) (p : path) (l : list value) :
  forall i,
    ListType.validate_items self p i l = Ok tt
    <-> forall j x, nth_error l j = Some x ->
          AbstractType.validate (ListType.items self) x (ListType.item_path p (i + j))
          = Ok tt.
Proof.
  induction l as [|x r IH]; intros i; cbn [ListType.validate_items].
  - split; [|reflexivity]. intros _ [|j] y Hy; discriminate Hy.
  - split.
    + intros H [|j] y Hy; cbn [nth_error] in Hy.
      * injection Hy as <-. rewrite Nat.add_0_r.
        destruct (AbstractType.validate _ x _) as [[]|e]; [reflexivity|discriminate H].
      * destruct (AbstractType.validate _ x _) as [[]|e]; [|discriminate H].
        cbn [bind] in H. rewrite Nat.add_succ_r. exact (proj1 (IH (S i)) H j y Hy).
    + intros H. rewrite <- (Nat.add_0_r i) at 1. rewrite (H 0%nat x eq_refl). cbn [bind].
      apply IH. intros j y Hy. replace (S i + j)%nat with (i + S j)%nat by lia.
      exact (H (S j) y Hy).
Qed.

(** X9.  [ListType.validate] accepts exactly the lists whose length lies
    between [min] and [max], both included, and whose every item validates
    at the path extended by its index. *)
Theorem X9_list_validate_rules (self : ListType.t) (data : value) (p : path) :
  ListType.validate self data p = Ok tt
  <-> exists l, data = VList l
      /\ within (ListType.min self) (ListType.max self) (Z.of_nat (length l))
      /\ forall j x, nth_error l j = Some x ->
           AbstractType.validate (ListType.items self) x (ListType.item_path p j) = Ok tt.
Proof.
  unfold ListType.validate. split.
  - destruct (ListType._validate self data p) as [[]|e] eqn:Hv; [|discriminate].
    apply list_validate_ok_iff in Hv. destruct Hv as (l & -> & Hw).
    cbn [bind]. intros H. exists l. repeat split; try apply Hw.
    exact (proj1 (validate_items_ok_iff self p l 0) H).
  - intros (l & -> & Hw & Hi).
    rewrite (proj2 (list_validate_ok_iff self (VList l) p)) by eauto.
    cbn [bind]. now apply validate_items_ok_iff.
Qed.

Lemma X9_list_validate_rules_witness :
  exists l, VList [VInt 1] = VList l
    /\ within (ListType.min int_list) (ListType.max int_list) (Z.of_nat (length l)).
Proof.
  destruct (proj1 (X9_list_validate_rules int_list (VList [VInt 1]) []) eq_refl)
    as (l & H1 & H2 & _).
  exists l. split; assumption.
Defined.

Lemma unserialize_items_first_error (self : ListType.t) (p : path)
      (l1 : list value) (x : value) (l2 : list value) (e : exn) (s : value) :
  forall i,
    (forall j y, nth_error l1 j = Some y ->
       exists r, fst (AbstractType.unserialize (ListType.items self) y
                        (ListType.item_path p (i + j))) = Ok r) ->
    AbstractType.unserialize (ListType.items self) x
      (ListType.item_path p (i + length l1)) = (Raise e, s) ->
    fst (ListType.unserialize_items self p i (l1 ++ x :: l2)) = Some e.
Proof.
  induction l1 as [|y r IH]; intros i Hok Hx; cbn [app ListType.unserialize_items].
  - cbn [length] in Hx. rewrite Nat.add_0_r in Hx. now rewrite Hx.
  - destruct (Hok 0%nat y eq_refl) as [ry Hy]. rewrite Nat.add_0_r in Hy.
    destruct (AbstractType.unserialize (ListType.items self) y (ListType.item_path p i))
      as [[y'|e'] y''] ; [|discriminate Hy].
    specialize (IH (S i)).
    destruct (ListType.unserialize_items self p (S i) (r ++ x :: l2)) as [e0 r'].
    cbn [fst] in *. apply IH.
    + intros j z Hz. replace (S i + j)%nat with (i + S j)%nat by lia.
      exact (Hok (S j) z Hz).
    + cbn [length] in Hx. now replace (S i + length r)%nat with (i + S (length r))%nat by lia.
Qed.

(** X10.  When the items before some index decode and the item at that index
    does not, the list decode raises the error of that item as it is; the
    count bounds are not looked at before. *)
Theorem X10_list_reports_first_bad_item
        (self : ListType.t) (p : path) (l1 : list value) (x : value)
        (l2 : list value) (e : exn) (s : value) :
  (forall j y, nth_error l1 j = Some y ->
     exists r, fst (AbstractType.unserialize (ListType.items self) y
                      (ListType.item_path p j)) = Ok r) ->
  AbstractType.unserialize (ListType.items self) x
    (ListType.item_path p (length l1)) = (Raise e, s) ->
  fst (ListType.unserialize self (VList (l1 ++ x :: l2)) p) = Raise e.
Proof.
  intros Hok Hx. unfold ListType.unserialize.
  pose proof (unserialize_items_first_error self p l1 x l2 e s 0 Hok Hx) as H.
  destruct (ListType.unserialize_items self p 0 (l1 ++ x :: l2)) as [e0 l'].
  cbn [fst] in H. now subst e0.
Qed.

Lemma X10_list_reports_first_bad_item_witness :
  fst (ListType.unserialize int_list (VList [VStr "1"; VStr "x"]) [])
  = Raise (ConstraintException [KStr "1"] "Must be an integer").
Proof.
  apply (X10_list_reports_first_bad_item int_list [] [VStr "1"] (VStr "x") []
           (ConstraintException [KStr "1"] "Must be an integer") (VStr "x")).
  - intros [|[|j]] y H; cbn in H; try discriminate H.
    injection H as <-. eexists. reflexivity.
  - reflexivity.
Defined.

Lemma int_serialize_inverse (self : IntType.t) (v : value) (q : path) (w : value) :
  IntType.serialize self v q = Ok w ->
  fst (IntType.unserialize self w q) = Ok v.
Proof.
  unfold IntType.serialize, IntType.unserialize. cbn [fst].
  destruct (IntType.validate self v q) as [[]|e] eqn:Hv; [|discriminate].
  cbn [bind]. intros [= <-].
  destruct v; try (unfold IntType.validate in Hv; discriminate Hv); now rewrite Hv.
Qed.

Lemma serialize_items_inverse (self : ListType.t) (p : path) :
  (forall v q w, AbstractType.serialize (ListType.items self) v q = Ok w ->
                 fst (AbstractType.unserialize (ListType.items self) w q) = Ok v) ->
  forall l i l2,
    ListType.serialize_items self p i l = Ok l2 ->
    ListType.unserialize_items self p i l2 = (None, l).
Proof.
  intros Hrt. induction l as [|x r IH]; intros i l2 H; cbn [ListType.serialize_items] in H.
  - now injection H as <-.
  - destruct (AbstractType.serialize (ListType.items self) x (ListType.item_path p i))
      as [y|e] eqn:Hx; [|discriminate H].
    cbn [bind] in H.
    destruct (ListType.serialize_items self p (S i) r) as [r2|e] eqn:Hr; [|discriminate H].
    injection H as <-. cbn [ListType.unserialize_items].
    pose proof (Hrt x _ y Hx) as Hy.
    destruct (AbstractType.unserialize (ListType.items self) y (ListType.item_path p i))
      as [ry sy]. cbn [fst] in Hy. subst ry.
    now rewrite (IH (S i) r2 Hr).
Qed.

(** X11.  If the item type decodes what it encodes back to the value it
    encoded, so does the list: decoding the encoding of a list gives the
    list. *)
Theorem X11_list_round_trip (self : ListType.t) (data : value) (p : path) (w : value) :
  (forall v q w, AbstractType.serialize (ListType.items self) v q = Ok w ->
                 fst (AbstractType.unserialize (ListType.items self) w q) = Ok v) ->
  ListType.serialize self data p = Ok w ->
  fst (ListType.unserialize self w p) = Ok data.
Proof.
  intros Hrt H. unfold ListType.serialize in H.
  destruct (ListType._validate self data p) as [[]|e] eqn:Hv; [|discriminate H].
  destruct (proj1 (list_validate_ok_iff self data p) Hv) as (l & -> & Hw).
  cbn [bind] in H.
  destruct (ListType.serialize_items self p 0 l) as [l2|e] eqn:Hs; [|discriminate H].
  injection H as <-. unfold ListType.unserialize.
  rewrite (serialize_items_inverse self p Hrt l 0 l2 Hs). cbn [fst].
  now rewrite Hv.
Qed.

Lemma X11_list_round_trip_witness :
  fst (ListType.unserialize int_list (VList [VInt 1; VInt 2]) [])
  = Ok (VList [VInt 1; VInt 2]).
Proof.
  exact (X11_list_round_trip int_list (VList [VInt 1; VInt 2]) []
           (VList [VInt 1; VInt 2])
           (int_serialize_inverse (IntType.Build None None)) eq_refl).
Defined.

(** ** Maps *)

Lemma dict_mem_false_not_in (k : key) (d : dict) :
  dict_mem k d = false -> ~ In k (map fst d).
Proof.
  unfold dict_mem, assoc_mem. induction d as [|[k' v] d IH]; cbn; [tauto|].
  destruct (key_eqb_spec k k') as [->|Hne]; [discriminate|].
  intros H [E|Hin]; [congruence|]. now apply IH.
Qed.

Lemma dict_set_fresh (k : key) (v : value) (d : dict) :
  dict_mem k d = false -> dict_set k v d = d ++ [(k, v)].
Proof. unfold dict_set, assoc_set, dict_mem. now intros ->. Qed.

Lemma map_validate_ok (self : MapType.t) (data : value) (p : path) (entries : dict) :
  MapType._validate self data p = Ok entries ->
  data = VDict entries
  /\ within (MapType.min self) (MapType.max self) (Z.of_nat (length entries)).
Proof.
  unfold MapType._validate, within. destruct data; try discriminate.
  destruct (MapType.min self) as [a|], (MapType.max self) as [b|]; cbn.
  all: try (destruct (Z.ltb_spec (Z.of_nat (length entries0)) a); [discriminate|]); cbn.
  all: try (destruct (Z.ltb_spec b (Z.of_nat (length entries0))); [discriminate|]); cbn.
  all: intros [= <-]; repeat split; intros m [= <-]; lia.
Qed.

Lemma unserialize_entries_ok (self : MapType.t) (p : path) (keys_left : list key) :
  forall result data result' data',
    MapType.unserialize_entries self p keys_left result data = (Ok result', data') ->
    length result' = (length result + length keys_left)%nat
    /\ (NoDup (map fst result) -> NoDup (map fst result')).
Proof.
  induction keys_left as [|key r IH]; intros result data result' data' H;
    cbn [MapType.unserialize_entries] in H.
  - injection H as <- _. split; [cbn; lia|trivial].
  - destruct (MapType.item data key) as [value|e]; [|discriminate H].
    destruct (fst (AbstractType.unserialize (MapType.keys self) (value_of_key key) _))
      as [uk|e]; [|discriminate H].
    destruct (key_of_value uk) as [unserialized_key|e]; [|discriminate H].
    destruct (dict_mem unserialized_key result) eqn:Hmem; [discriminate H|].
    destruct (AbstractType.unserialize (MapType.values self) value _) as [[v|e] value'];
      [|discriminate H].
    destruct (IH _ _ _ _ H) as [Hlen Hnd].
    rewrite (dict_set_fresh _ v _ Hmem) in Hlen, Hnd.
    rewrite length_app in Hlen. cbn [length] in *.
    split; [lia|]. intros Hr. apply Hnd.
    rewrite map_app. cbn [map fst].
    apply NoDup_app; [exact Hr|repeat constructor; intros []|].
    intros k Hk [<-|[]]. exact (dict_mem_false_not_in _ _ Hmem Hk).
Qed.

(** X12.  A map decode that succeeds was given a mapping whose number of
    entries is within [min] and [max], and returns a mapping with as many
    entries under pairwise different keys: two raw keys never end up under
    one decoded key. *)
Theorem X12_map_decode_keeps_entries_apart
        (self : MapType.t) (data : value) (p : path) (r : value) :
  fst (MapType.unserialize self data p) = Ok r ->
  exists entries result,
    data = VDict entries /\ r = VDict result
    /\ within (MapType.min self) (MapType.max self) (Z.of_nat (length entries))
    /\ length result = length entries
    /\ NoDup (map fst result).
Proof.
  unfold MapType.unserialize.
  destruct (MapType._validate self data p) as [entries|e] eqn:Hv; [|discriminate].
  destruct (map_validate_ok self data p entries Hv) as [-> Hw].
  destruct (MapType.unserialize_entries self p (map fst entries) [] entries)
    as [[result|e] data'] eqn:He; [|discriminate].
  cbn [fst]. intros [= <-].
  destruct (unserialize_entries_ok self p _ _ _ _ _ He) as [Hlen Hnd].
  exists entries, result. rewrite length_map in Hlen. cbn [length] in Hlen.
  repeat split; try apply Hw; [exact Hlen|]. apply Hnd. constructor.
Qed.

Lemma X12_map_decode_keeps_entries_apart_witness :
  exists entries result,
    VDict [(KStr "a", VStr "1")] = VDict entries /\ VDict [(KStr "a", VInt 1)] = VDict result
    /\ length result = length entries /\ NoDup (map fst result).
Proof.
  destruct (X12_map_decode_keeps_entries_apart nonempty_map
              (VDict [(KStr "a", VStr "1")]) [] (VDict [(KStr "a", VInt 1)]) eq_refl)
    as (entries & result & H1 & H2 & _ & H3 & H4).
  exists entries, result. repeat split; assumption.
Defined.

Lemma validate_entries_ok_iff (self : MapType.t) (p : path) (data : dict)
      (keys_left : list key) :
  MapType.validate_entries self p keys_left data = Ok tt
  <-> forall k, In k keys_left ->
        exists v, dict_get k data = Some v
          /\ AbstractType.validate (MapType.keys self) (value_of_key k)
               ((p ++ [k]) ++ [KStr "key"]) = Ok tt
          /\ AbstractType.validate (MapType.values self) v (p ++ [k]) = Ok tt.
Proof.
  induction keys_left as [|key r IH]; cbn [MapType.validate_entries].
  - split; [intros _ k []|reflexivity].
  - unfold MapType.item. split.
    + intros H k [<-|Hk].
      * destruct (dict_get key data) as [v|]; [|discriminate H]. cbn [bind] in H.
        exists v.
        destruct (AbstractType.validate (MapType.keys self) _ _) as [[]|e];
          [|discriminate H].
        cbn [bind] in H.
        destruct (AbstractType.validate (MapType.values self) _ _) as [[]|e];
          [|discriminate H].
        now repeat split.
      * destruct (dict_get key data) as [v|]; [|discriminate H]. cbn [bind] in H.
        destruct (AbstractType.validate (MapType.keys self) _ _) as [[]|e];
          [|discriminate H].
        cbn [bind] in H.
        destruct (AbstractType.validate (MapType.values self) _ _) as [[]|e];
          [|discriminate H].
        exact (proj1 IH H k Hk).
    + intros H. destruct (H key (or_introl eq_refl)) as (v & Hg & Hkv & Hvv).
      rewrite Hg. cbn [bind]. rewrite Hkv. cbn [bind]. rewrite Hvv. cbn [bind].
      apply IH. intros k Hk. apply H. now right.
Qed.

(** X27.  [MapType.validate] accepts exactly the mappings whose number of
    entries lies between [min] and [max] and in which every key validates at
    the path extended by the key and the marker ["key"], and every value
    validates at the path extended by the key alone. *)
Theorem X27_map_validate_rules (self : MapType.t) (data : value) (p : path) :
  MapType.validate self data p = Ok tt
  <-> exists entries,
        data = VDict entries
        /\ within (MapType.min self) (MapType.max self) (Z.of_nat (length entries))
        /\ forall k, In k (map fst entries) ->
             exists v, dict_get k entries = Some v
               /\ AbstractType.validate (MapType.keys self) (value_of_key k)
                    ((p ++ [k]) ++ [KStr "key"]) = Ok tt
               /\ AbstractType.validate (MapType.values self) v (p ++ [k]) = Ok tt.
Proof.
  unfold MapType.validate. split.
  - destruct (MapType._validate self data p) as [entries|e] eqn:Hv; [|discriminate].
    destruct (map_validate_ok self data p entries Hv) as [-> Hw].
    cbn [bind]. intros H. exists entries. repeat split; try apply Hw.
    now apply validate_entries_ok_iff.
  - intros (entries & -> & Hw & Hk).
    assert (Hv : MapType._validate self (VDict entries) p = Ok entries).
    { unfold MapType._validate. destruct Hw as [H1 H2].
      destruct (MapType.min self) as [a|]; cbn.
      1: specialize (H1 _ eq_refl);
         destruct (Z.ltb_spec (Z.of_nat (length entries)) a); [lia|]; cbn.
      all: destruct (MapType.max self) as [b|]; cbn; [|reflexivity].
      all: specialize (H2 _ eq_refl);
           destruct (Z.ltb_spec b (Z.of_nat (length entries))); [lia|reflexivity]. }
    rewrite Hv. cbn [bind]. now apply validate_entries_ok_iff.
Qed.

Lemma X27_map_validate_rules_witness :
  exists entries,
    VDict [(KStr "a", VInt 1)] = VDict entries
    /\ within (MapType.min nonempty_map) (MapType.max nonempty_map)
         (Z.of_nat (length entries)).
Proof.
  destruct (proj1 (X27_map_validate_rules nonempty_map (VDict [(KStr "a", VInt 1)]) [])
              eq_refl) as (entries & H1 & H2 & _).
  exists entries. split; assumption.
Defined.

(** ** Objects *)

Lemma sget_in {V : Type} (k : string) (l : list (string * V)) (v : V) :
  sget k l = Some v -> In (k, v) l.
Proof.
  unfold sget. induction l as [|[k' v'] l IH]; cbn; [discriminate|].
  destruct (String.eqb_spec k k') as [->|Hne].
  - intros [= ->]. now left.
  - intros H. right. now apply IH.
Qed.

(** X13.  A mapping with a key that is no declared property is refused by
    the object decode before any property is decoded: the error sits at the
    path of the object, names a key of the mapping that is not declared and
    lists the declared names, and the mapping is left as it was. *)
Theorem X13_object_refuses_unknown_keys
        (self : ObjectType.t) (entries : dict) (p : path) (k : key) :
  In k (map fst entries) ->
  (forall s, k = KStr s -> smem s (ObjectType.properties self) = false) ->
  exists unknown,
    ObjectType.unserialize self (VDict entries) p
    = (Raise (ConstraintException p
                ("Invalid parameter '" ++ str_of_key unknown ++ "', expected one of: "
                   ++ String.concat ", " (map fst (ObjectType.properties self)))),
       VDict entries)
    /\ In unknown (map fst entries)
    /\ forall s, unknown = KStr s -> smem s (ObjectType.properties self) = false.
Proof.
  intros Hin Hk. unfold ObjectType.unserialize, ObjectType.unknown_key.
  destruct (find _ (map fst entries)) as [u|] eqn:Hf.
  - exists u. split; [reflexivity|].
    destruct (find_some _ _ Hf) as [Hu Hp]. split; [exact Hu|].
    intros s ->. cbn in Hp. now apply negb_true_iff in Hp.
  - exfalso. pose proof (find_none _ _ Hf k Hin) as Hn. cbn in Hn.
    destruct k as [s|z]; [|discriminate Hn].
    rewrite (Hk s eq_refl) in Hn. discriminate Hn.
Qed.

Lemma X13_object_refuses_unknown_keys_witness :
  exists unknown,
    ObjectType.unserialize xy_object (VDict [(KStr "Z", VInt 1)]) []
    = (Raise (ConstraintException []
                ("Invalid parameter '" ++ str_of_key unknown ++ "', expected one of: "
                   ++ String.concat ", " (map fst (ObjectType.properties xy_object)))),
       VDict [(KStr "Z", VInt 1)]).
Proof.
  destruct (X13_object_refuses_unknown_keys xy_object [(KStr "Z", VInt 1)] [] (KStr "Z")
              (or_introl eq_refl)
              (fun s H => match H in _ = k return
                                match k with
                                | KStr s' => smem s' (ObjectType.properties xy_object) = false
                                | KInt _ => True
                                end
                          with eq_refl => eq_refl end))
    as (unknown & H & _).
  exists unknown. exact H.
Defined.

(** The wire value of [name] in [data] is missing or null. *)
Lemma unserialize_properties_required (name : string) (pr : PropertyType.t) (p : path)
      (props : list (string * PropertyType.t)) :
  In (name, pr) props ->
  forall data kwargs,
    is_none match dict_get (KStr name) data with Some v => v | None => VNone end = true ->
    PropertyType.required pr = true
    \/ (exists b, In b (PropertyType.required_if pr) /\ dict_mem (KStr b) data = true) ->
    exists e, fst (ObjectType.unserialize_properties props p data kwargs) = Raise e.
Proof.
  induction props as [|[property_id q] r IH]; intros Hin data kwargs Hnull Hreq;
    [destruct Hin|].
  cbn [ObjectType.unserialize_properties].
  destruct (is_none match dict_get (KStr property_id) data with
                    | Some v => v | None => VNone end) eqn:Hn.
  - destruct (ObjectType._validate_not_set (VDict data) q (p ++ [KStr property_id]))
      as [[]|e] eqn:Hv; [|eexists; reflexivity].
    destruct Hin as [[= -> ->]|Hin]; [|now apply IH].
    exfalso. unfold ObjectType._validate_not_set in Hv.
    destruct Hreq as [Hr|(b & Hb & Hm)].
    + rewrite Hr in Hv. discriminate Hv.
    + destruct (PropertyType.required pr); [discriminate Hv|]. cbn [bind] in Hv.
      destruct (find (ObjectType.required_if_hit (VDict data)) (PropertyType.required_if pr))
        eqn:Hf; [discriminate Hv|].
      pose proof (find_none _ _ Hf b Hb) as Hnone.
      unfold ObjectType.required_if_hit in Hnone. cbn [ObjectType.in_dict] in Hnone.
      rewrite Hm in Hnone. discriminate Hnone.
  - destruct Hin as [[= -> ->]|Hin]; [congruence|].
    destruct (AbstractType.unserialize (PropertyType.type q) _ _) as [[v|e] value'];
      [|eexists; reflexivity].
    destruct (find _ (PropertyType.conflicts q)); [eexists; reflexivity|].
    apply IH; [exact Hin| |].
    + destruct (String.eqb_spec property_id name) as [->|Hne]; [congruence|].
      rewrite dict_get_update_other by congruence. exact Hnull.
    + destruct Hreq as [Hr|(b & Hb & Hm)]; [now left|right].
      exists b. split; [exact Hb|]. now rewrite dict_mem_update.
Qed.

(** X14.  When the wire value of a declared property is missing or null, and
    the property is required or names in [required_if] a key of the mapping,
    the object decode does not succeed. *)
Theorem X14_object_decode_enforces_required
        (self : ObjectType.t) (entries : dict) (p : path)
        (name : string) (pr : PropertyType.t) :
  In (name, pr) (ObjectType.properties self) ->
  is_none match dict_get (KStr name) entries with Some v => v | None => VNone end = true ->
  PropertyType.required pr = true
  \/ (exists b, In b (PropertyType.required_if pr) /\ dict_mem (KStr b) entries = true) ->
  exists e, fst (ObjectType.unserialize self (VDict entries) p) = Raise e.
Proof.
  intros Hin Hnull Hreq. unfold ObjectType.unserialize.
  destruct (ObjectType.unknown_key self entries); [eexists; reflexivity|].
  destruct (unserialize_properties_required name pr p _ Hin entries [] Hnull Hreq)
    as [e He].
  destruct (ObjectType.unserialize_properties _ p entries []) as [[kwargs|e'] data'];
    [discriminate He|eexists; reflexivity].
Qed.

Lemma X14_object_decode_enforces_required_witness :
  exists e, fst (ObjectType.unserialize f_object (VDict []) []) = Raise e.
Proof.
  exact (X14_object_decode_enforces_required f_object [] [] "f"
           (PropertyType.Build any_int true [] [] [] EmptyString)
           (or_introl eq_refl) eq_refl (or_introl eq_refl)).
Defined.

Lemma validate_property_ok (self : ObjectType.t) (data : value) (p : path)
      (field_id property_id : string) (new_path : path) (v : value) :
  ObjectType._validate_property self data p field_id property_id = Ok (new_path, v) ->
  getattr data field_id = Ok v /\ new_path = p ++ [KStr property_id].
Proof.
  unfold ObjectType._validate_property.
  destruct (getattr data field_id) as [w|e]; [|discriminate]. cbn [bind].
  destruct (sget property_id (ObjectType.properties self)) as [pf|]; [|discriminate].
  cbn [bind]. destruct (is_none w).
  - destruct (ObjectType._validate_not_set data pf _); [|discriminate].
    cbn [bind]. now intros [= <- <-].
  - cbn [bind]. now intros [= <- <-].
Qed.

Lemma validate_property_required (self : ObjectType.t) (data : value) (p : path)
      (name : string) (pr : PropertyType.t) :
  sget name (ObjectType.properties self) = Some pr ->
  PropertyType.required pr = true ->
  getattr data (PropertyType.field_id name pr) = Ok VNone ->
  ObjectType._validate_property self data p (PropertyType.field_id name pr) name
  = Raise (ConstraintException (p ++ [KStr name]) "This field is required").
Proof.
  intros Hs Hr Hg. unfold ObjectType._validate_property.
  rewrite Hg. cbn [bind]. rewrite Hs. cbn [bind is_none].
  unfold ObjectType._validate_not_set. rewrite Hr. reflexivity.
Qed.

(** X15.  A typed value in which the field of a required property is
    [None] is refused by [validate] and by [serialize] alike. *)
Theorem X15_object_checks_required_on_typed_values
        (self : ObjectType.t) (data : value) (p : path)
        (name : string) (pr : PropertyType.t) :
  sget name (ObjectType.properties self) = Some pr ->
  PropertyType.required pr = true ->
  getattr data (PropertyType.field_id name pr) = Ok VNone ->
  (exists e, ObjectType.validate self data p = Raise e)
  /\ (exists e, ObjectType.serialize self data p = Raise e).
Proof.
  intros Hs Hr Hg. pose proof (sget_in _ _ _ Hs) as Hin.
  pose proof (validate_property_required self data p name pr Hs Hr Hg) as Hvp.
  split.
  - unfold ObjectType.validate.
    destruct (isinstance data _); [|eexists; reflexivity].
    assert (H : forall props values, In (name, pr) props ->
                exists e, ObjectType.validate_collect self props data p values = Raise e).
    { induction props as [|[pid q] r IH]; intros values Hi; [destruct Hi|].
      cbn [ObjectType.validate_collect].
      destruct Hi as [[= -> ->]|Hi].
      - rewrite Hvp. eexists; reflexivity.
      - destruct (ObjectType._validate_property self data p _ pid) as [[np v]|e];
          [|eexists; reflexivity].
        cbn [bind]. destruct (is_none v); [now apply IH|].
        destruct (AbstractType.validate _ v np); [|eexists; reflexivity].
        cbn [bind]. now apply IH. }
    destruct (H _ [] Hin) as [e He]. rewrite He. eexists; reflexivity.
  - unfold ObjectType.serialize.
    destruct (isinstance data _); [|eexists; reflexivity].
    assert (H : forall props result, In (name, pr) props ->
                exists e, ObjectType.serialize_properties self props data p result = Raise e).
    { induction props as [|[pid q] r IH]; intros result Hi; [destruct Hi|].
      cbn [ObjectType.serialize_properties].
      destruct Hi as [[= -> ->]|Hi].
      - rewrite Hvp. eexists; reflexivity.
      - destruct (ObjectType._validate_property self data p _ pid) as [[np v]|e];
          [|eexists; reflexivity].
        cbn [bind]. destruct (is_none v); [now apply IH|].
        destruct (getattr data (PropertyType.field_id pid q)); [|eexists; reflexivity].
        cbn [bind].
        destruct (AbstractType.serialize _ _ np); [|eexists; reflexivity].
        cbn [bind]. now apply IH. }
    destruct (H _ [] Hin) as [e He]. rewrite He. eexists; reflexivity.
Qed.

Lemma X15_object_checks_required_witness :
  (exists e, ObjectType.validate f_object (VObj ["F"] [("f", VNone)]) [] = Raise e)
  /\ (exists e, ObjectType.serialize f_object (VObj ["F"] [("f", VNone)]) [] = Raise e).
Proof.
  exact (X15_object_checks_required_on_typed_values f_object
           (VObj ["F"] [("f", VNone)]) [] "f"
           (PropertyType.Build any_int true [] [] [] EmptyString)
           eq_refl eq_refl eq_refl).
Defined.

Lemma dict_update_keys (k : key) (v : value) (d : dict) :
  map fst (dict_update k v d) = map fst d.
Proof.
  unfold dict_update. induction d as [|[k' v'] d IH]; [reflexivity|].
  cbn [assoc_update]. destruct (key_eqb k k'); cbn [map fst]; [reflexivity|].
  now rewrite IH.
Qed.

Lemma dict_set_keys (k k0 : key) (v : value) (d : dict) :
  In k (map fst (dict_set k0 v d)) -> k = k0 \/ In k (map fst d).
Proof.
  unfold dict_set, assoc_set. destruct (assoc_mem key_eqb k0 d).
  - change (assoc_update key_eqb) with dict_update. rewrite dict_update_keys. now right.
  - rewrite map_app, in_app_iff. cbn. intros [H|[H|[]]]; [now right|now left].
Qed.

Lemma serialize_properties_keys (self : ObjectType.t) (data : value) (p : path)
      (props : list (string * PropertyType.t)) :
  forall result result',
    ObjectType.serialize_properties self props data p result = Ok result' ->
    forall k, In k (map fst result') ->
      In k (map fst result)
      \/ exists name pr v,
           k = KStr name /\ In (name, pr) props
           /\ getattr data (PropertyType.field_id name pr) = Ok v /\ is_none v = false.
Proof.
  induction props as [|[pid q] r IH]; intros result result' H k Hk;
    cbn [ObjectType.serialize_properties] in H.
  - injection H as <-. now left.
  - destruct (ObjectType._validate_property self data p _ pid) as [[np v]|e] eqn:Hvp;
      [|discriminate H].
    cbn [bind] in H. destruct (validate_property_ok _ _ _ _ _ _ _ Hvp) as [Hg _].
    destruct (is_none v) eqn:Hn.
    + destruct (IH _ _ H k Hk) as [Hl|(name & pr & w & Hk1 & Hi & Hg' & Hn')];
        [now left|right].
      exists name, pr, w. repeat split; try assumption. now right.
    + rewrite Hg in H. cbn [bind] in H.
      destruct (AbstractType.serialize _ v np) as [w|e]; [|discriminate H].
      cbn [bind] in H.
      destruct (IH _ _ H k Hk) as [Hl|(name & pr & w' & Hk1 & Hi & Hg' & Hn')].
      * destruct (dict_set_keys _ _ _ _ Hl) as [->|Hl']; [right|now left].
        exists pid, q, v. repeat split; try assumption. now left.
      * right. exists name, pr, w'. repeat split; try assumption. now right.
Qed.

(** X16.  The mapping that an object encode returns has no key but declared
    property names whose field in the value is set: what is [None] is left
    out. *)
Theorem X16_object_encodes_only_set_properties
        (self : ObjectType.t) (data : value) (p : path) (r : value) :
  ObjectType.serialize self data p = Ok r ->
  exists d,
    r = VDict d
    /\ forall k, In k (map fst d) ->
         exists name pr v,
           k = KStr name /\ In (name, pr) (ObjectType.properties self)
           /\ getattr data (PropertyType.field_id name pr) = Ok v /\ is_none v = false.
Proof.
  unfold ObjectType.serialize. destruct (isinstance data _); [|discriminate].
  destruct (ObjectType.serialize_properties self _ data p []) as [d|e] eqn:H;
    [|discriminate].
  cbn [bind]. intros [= <-]. exists d. split; [reflexivity|].
  intros k Hk. destruct (serialize_properties_keys self data p _ _ _ H k Hk) as [[]|Hr].
  exact Hr.
Qed.

Lemma X16_object_encodes_only_set_properties_witness :
  exists d, VDict [(KStr "X", VInt 1)] = VDict d
    /\ forall k, In k (map fst d) ->
         exists name pr v,
           k = KStr name /\ In (name, pr) (ObjectType.properties xy_object)
           /\ getattr (xy (VInt 1) VNone) (PropertyType.field_id name pr) = Ok v
           /\ is_none v = false.
Proof.
  exact (X16_object_encodes_only_set_properties xy_object (xy (VInt 1) VNone) []
           (VDict [(KStr "X", VInt 1)]) eq_refl).
Defined.

(** X17.  If every property type encodes the values it validates, an object
    encodes the values it validates.  (The converse fails: see C1.) *)
Theorem X17_object_encodes_what_it_validates
        (self : ObjectType.t) (data : value) (p : path) :
  (forall name pr v q, In (name, pr) (ObjectType.properties self) ->
     AbstractType.validate (PropertyType.type pr) v q = Ok tt ->
     exists w, AbstractType.serialize (PropertyType.type pr) v q = Ok w) ->
  ObjectType.validate self data p = Ok tt ->
  exists d, ObjectType.serialize self data p = Ok (VDict d).
Proof.
  intros Hc. unfold ObjectType.validate, ObjectType.serialize.
  destruct (isinstance data _); [|discriminate].
  destruct (ObjectType.validate_collect self _ data p []) as [values|e] eqn:Hv;
    [|discriminate].
  intros _.
  assert (H : forall props values values' result,
            (forall name pr, In (name, pr) props ->
                             In (name, pr) (ObjectType.properties self)) ->
            ObjectType.validate_collect self props data p values = Ok values' ->
            exists result',
              ObjectType.serialize_properties self props data p result = Ok result').
  { induction props as [|[pid q] r IH]; intros vs vs' result Hsub H.
    - eexists; reflexivity.
    - cbn [ObjectType.validate_collect] in H. cbn [ObjectType.serialize_properties].
      destruct (ObjectType._validate_property self data p _ pid) as [[np v]|e] eqn:Hvp;
        [|discriminate H].
      cbn [bind] in *. destruct (validate_property_ok _ _ _ _ _ _ _ Hvp) as [Hg _].
      assert (Hsub' : forall name pr, In (name, pr) r ->
                        In (name, pr) (ObjectType.properties self))
        by (intros n0 p0 Hi; apply Hsub; now right).
      destruct (is_none v); [exact (IH _ _ _ Hsub' H)|].
      destruct (AbstractType.validate (PropertyType.type q) v np) as [[]|e] eqn:Hval;
        [|discriminate H].
      cbn [bind] in H. rewrite Hg. cbn [bind].
      destruct (Hc pid q v np (Hsub pid q (or_introl eq_refl)) Hval) as [w ->].
      cbn [bind]. exact (IH _ _ _ Hsub' H). }
  destruct (H _ _ _ [] (fun _ _ Hi => Hi) Hv) as [d ->]. exists d. reflexivity.
Qed.

Lemma X17_object_encodes_what_it_validates_witness :
  exists d, ObjectType.serialize xy_object (xy (VInt 1) VNone) [] = Ok (VDict d).
Proof.
  apply (X17_object_encodes_what_it_validates xy_object (xy (VInt 1) VNone) []);
    [|reflexivity].
  intros name pr v q [H|[H|[]]] Hv; injection H as _ <-; exists v;
    cbn in Hv |- *; unfold IntType.serialize; rewrite Hv; reflexivity.
Defined.

Lemma unserialize_properties_conflict (x : string) (px : PropertyType.t) (c : string)
      (p : path) (props : list (string * PropertyType.t)) :
  sget x props = Some px ->
  In c (PropertyType.conflicts px) ->
  forall data kwargs,
    is_none match dict_get (KStr x) data with Some v => v | None => VNone end = false ->
    dict_mem (KStr c) data = true ->
    exists e, fst (ObjectType.unserialize_properties props p data kwargs) = Raise e.
Proof.
  intros Hs Hc. induction props as [|[pid q] r IH]; intros data kwargs Hx Hm;
    [discriminate Hs|].
  cbn [ObjectType.unserialize_properties].
  unfold sget in Hs. cbn [assoc_get] in Hs.
  destruct (String.eqb_spec x pid) as [<-|Hne].
  - injection Hs as ->. rewrite Hx.
    destruct (AbstractType.unserialize (PropertyType.type px) _ _) as [[v|e] value'];
      [|eexists; reflexivity].
    destruct (find _ (PropertyType.conflicts px)) eqn:Hf; [eexists; reflexivity|].
    pose proof (find_none _ _ Hf c Hc) as Hn. cbn in Hn.
    rewrite dict_mem_update, Hm in Hn. discriminate Hn.
  - destruct (is_none match dict_get (KStr pid) data with
                      | Some v => v | None => VNone end).
    + destruct (ObjectType._validate_not_set _ q _); [|eexists; reflexivity].
      now apply IH.
    + destruct (AbstractType.unserialize (PropertyType.type q) _ _) as [[v|e] value'];
        [|eexists; reflexivity].
      destruct (find _ (PropertyType.conflicts q)); [eexists; reflexivity|].
      apply IH; [exact Hs| |now rewrite dict_mem_update].
      rewrite dict_get_update_other by congruence. exact Hx.
Qed.

(** X18.  When a property has a wire value that is not null and a name in
    its [conflicts] is a key of the mapping, whatever the value under that
    key, the object decode does not succeed. *)
Theorem X18_object_decode_refuses_conflicts
        (self : ObjectType.t) (entries : dict) (p : path)
        (x : string) (px : PropertyType.t) (c : string) :
  sget x (ObjectType.properties self) = Some px ->
  In c (PropertyType.conflicts px) ->
  is_none match dict_get (KStr x) entries with Some v => v | None => VNone end = false ->
  dict_mem (KStr c) entries = true ->
  exists e, fst (ObjectType.unserialize self (VDict entries) p) = Raise e.
Proof.
  intros Hs Hc Hx Hm. unfold ObjectType.unserialize.
  destruct (ObjectType.unknown_key self entries); [eexists; reflexivity|].
  destruct (unserialize_properties_conflict x px c p _ Hs Hc entries [] Hx Hm) as [e He].
  destruct (ObjectType.unserialize_properties _ p entries []) as [[kwargs|e'] data'];
    [discriminate He|eexists; reflexivity].
Qed.

Lemma X18_object_decode_refuses_conflicts_witness :
  exists e,
    fst (ObjectType.unserialize xy_object
           (VDict [(KStr "X", VInt 1); (KStr "Y", VNone)]) []) = Raise e.
Proof.
  exact (X18_object_decode_refuses_conflicts xy_object
           [(KStr "X", VInt 1); (KStr "Y", VNone)] [] "X"
           (PropertyType.Build any_int false [] [] ["Y"] EmptyString) "Y"
           eq_refl (or_introl eq_refl) eq_refl eq_refl).
Defined.

Lemma sset_mem {V : Type} (k k0 : string) (v : V) (l : list (string * V)) :
  smem k (sset k0 v l) = String.eqb k k0 || smem k l.
Proof.
  unfold smem, sset, assoc_set, assoc_mem.
  destruct (assoc_get String.eqb k0 l) as [v0|] eqn:H0.
  - induction l as [|[k' v'] l IH]; [discriminate H0|].
    cbn [assoc_get assoc_update] in *.
    destruct (String.eqb_spec k0 k') as [->|Hne].
    + cbn [assoc_get]. destruct (String.eqb k k'); reflexivity.
    + cbn [assoc_get]. destruct (String.eqb_spec k k') as [->|Hk].
      * now rewrite orb_true_r.
      * exact (IH H0).
  - induction l as [|[k' v'] l IH]; cbn [app assoc_get] in *.
    + destruct (String.eqb k k0); reflexivity.
    + destruct (String.eqb k0 k'); [discriminate H0|].
      destruct (String.eqb k k'); [now rewrite orb_true_r|exact (IH H0)].
Qed.

Lemma validate_collect_values (self : ObjectType.t) (data : value) (p : path)
      (props : list (string * PropertyType.t)) :
  forall values values',
    ObjectType.validate_collect self props data p values = Ok values' ->
    (forall k, smem k values = true -> smem k values' = true)
    /\ forall name pr v,
         In (name, pr) props ->
         getattr data (PropertyType.field_id name pr) = Ok v -> is_none v = false ->
         smem name values' = true.
Proof.
  induction props as [|[pid q] r IH]; intros values values' H;
    cbn [ObjectType.validate_collect] in H.
  - injection H as <-. split; [trivial|]. intros ? ? ? [].
  - destruct (ObjectType._validate_property self data p _ pid) as [[np v]|e] eqn:Hvp;
      [|discriminate H].
    cbn [bind] in H. destruct (validate_property_ok _ _ _ _ _ _ _ Hvp) as [Hg _].
    destruct (is_none v) eqn:Hn.
    + destruct (IH _ _ H) as [Hmono Hset]. split; [exact Hmono|].
      intros name pr w [[= <- <-]|Hi] Hw Hnw; [congruence|].
      exact (Hset name pr w Hi Hw Hnw).
    + destruct (AbstractType.validate _ v np); [|discriminate H]. cbn [bind] in H.
      destruct (IH _ _ H) as [Hmono Hset]. split.
      * intros k Hk. apply Hmono. rewrite sset_mem, Hk. apply orb_true_r.
      * intros name pr w [[= <- <-]|Hi] Hw Hnw.
        -- apply Hmono. now rewrite sset_mem, String.eqb_refl.
        -- exact (Hset name pr w Hi Hw Hnw).
Qed.

Lemma validate_rules_conflict (x : string) (px : PropertyType.t) (y : string)
      (p : path) (values : list (string * value))
      (props : list (string * PropertyType.t)) :
  In (x, px) props ->
  In y (PropertyType.conflicts px) ->
  smem x values = true -> smem y values = true ->
  exists e, ObjectType.validate_rules props p values = Raise e.
Proof.
  intros Hin Hy Hx Hyv. induction props as [|[pid q] r IH]; [destruct Hin|].
  cbn [ObjectType.validate_rules].
  destruct Hin as [[= -> ->]|Hin].
  - rewrite Hx.
    destruct (find (fun c => smem c values) (PropertyType.conflicts px)) eqn:Hf;
      [eexists; reflexivity|].
    pose proof (find_none _ _ Hf y Hy) as Hn. cbn in Hn. congruence.
  - match goal with
    | |- exists e, bind ?c _ = _ => destruct c; [|eexists; reflexivity]
    end.
    cbn [bind]. now apply IH.
Qed.

(** X19.  A typed value in which a property and one of the properties named
    in its [conflicts] are both set is never accepted by [validate]. *)
Theorem X19_object_validate_refuses_conflicts
        (self : ObjectType.t) (data : value) (p : path)
        (x y : string) (px py : PropertyType.t) (vx vy : value) :
  In (x, px) (ObjectType.properties self) ->
  In (y, py) (ObjectType.properties self) ->
  In y (PropertyType.conflicts px) ->
  getattr data (PropertyType.field_id x px) = Ok vx -> is_none vx = false ->
  getattr data (PropertyType.field_id y py) = Ok vy -> is_none vy = false ->
  exists e, ObjectType.validate self data p = Raise e.
Proof.
  intros Hx Hy Hc Hgx Hnx Hgy Hny. unfold ObjectType.validate.
  destruct (isinstance data _); [|eexists; reflexivity].
  destruct (ObjectType.validate_collect self _ data p []) as [values|e] eqn:Hv;
    [|eexists; reflexivity].
  cbn [bind]. destruct (validate_collect_values self data p _ _ _ Hv) as [_ Hset].
  apply (validate_rules_conflict x px y p values _ Hx Hc).
  - exact (Hset x px vx Hx Hgx Hnx).
  - exact (Hset y py vy Hy Hgy Hny).
Qed.

Lemma X19_object_validate_refuses_conflicts_witness :
  exists e, ObjectType.validate xy_object (xy (VInt 1) (VInt 2)) [] = Raise e.
Proof.
  exact (X19_object_validate_refuses_conflicts xy_object (xy (VInt 1) (VInt 2)) []
           "X" "Y" (PropertyType.Build any_int false [] [] ["Y"] EmptyString)
           (optional any_int) (VInt 1) (VInt 2)
           (or_introl eq_refl) (or_intror (or_introl eq_refl)) (or_introl eq_refl)
           eq_refl eq_refl eq_refl eq_refl).
Defined.

(** ** Unions *)

Lemma validate_types_skip (u : OneOfStringType.t) (data : value) (p : path)
      (pre rest : list (string * ObjectType.t)) :
  (forall k o, In (k, o) pre ->
     isinstance data (PyClass.name (ObjectType.cls o)) = false) ->
  OneOfStringType.validate_types u (pre ++ rest) data p
  = OneOfStringType.validate_types u rest data p.
Proof.
  induction pre as [|[k o] pre IH]; intros H; [reflexivity|].
  cbn [app OneOfStringType.validate_types].
  rewrite (H k o (or_introl eq_refl)). apply IH.
  intros k' o' Hi. apply (H k' o'). now right.
Qed.

Lemma serialize_types_skip (u : OneOfStringType.t) (data : value) (p : path)
      (pre rest : list (string * ObjectType.t)) :
  (forall k o, In (k, o) pre ->
     isinstance data (PyClass.name (ObjectType.cls o)) = false) ->
  OneOfStringType.serialize_types u (pre ++ rest) data p
  = OneOfStringType.serialize_types u rest data p.
Proof.
  induction pre as [|[k o] pre IH]; intros H; [reflexivity|].
  cbn [app OneOfStringType.serialize_types].
  rewrite (H k o (or_introl eq_refl)). apply IH.
  intros k' o' Hi. apply (H k' o'). now right.
Qed.

(** X20.  A value that is an instance of no member's class is refused by the
    validate and the encode of a union, at the path of the union, with a
    message that names the type of the value and lists the class names of
    all members. *)
Theorem X20_union_refuses_foreign_values
        (u : OneOfStringType.t) (data : value) (p : path) :
  (forall k o, In (k, o) (OneOfStringType.types u) ->
     isinstance data (PyClass.name (ObjectType.cls o)) = false) ->
  let e :=
    ConstraintException p
      ("Invalid type: '" ++ type_name data ++ "', expected one of '"
         ++ String.concat "', '"
              (map (fun m => PyClass.name (ObjectType.cls (snd m)))
                   (OneOfStringType.types u))
         ++ "'") in
  OneOfStringType.validate u data p = Raise e
  /\ OneOfStringType.serialize u data p = Raise e.
Proof.
  intros H e. unfold OneOfStringType.validate, OneOfStringType.serialize.
  rewrite <- (app_nil_r (OneOfStringType.types u)).
  rewrite validate_types_skip, serialize_types_skip by exact H.
  split; reflexivity.
Qed.

Lemma X20_union_refuses_foreign_values_witness :
  OneOfStringType.validate a_union (VInt 3) [KStr "u"]
  = Raise (ConstraintException [KStr "u"] "Invalid type: 'int', expected one of 'F'").
Proof.
  exact (proj1 (X20_union_refuses_foreign_values a_union (VInt 3) [KStr "u"]
                  (fun _ _ _ => eq_refl))).
Defined.

(** X21.  For a value whose class selects a member that declares the
    discriminator as a property, and whose discriminator field holds the key
    of that member, validate and encode of the union are validate and encode
    of the member at the empty path: the path of the union is not handed on,
    and the encoding gets no extra key. *)
Theorem X21_union_member_with_declared_tag
        (u : OneOfStringType.t) (data : value) (p : path)
        (pre post : list (string * ObjectType.t)) (k : string) (o : ObjectType.t) :
  OneOfStringType.types u = pre ++ (k, o) :: post ->
  (forall k' o', In (k', o') pre ->
     isinstance data (PyClass.name (ObjectType.cls o')) = false) ->
  isinstance data (PyClass.name (ObjectType.cls o)) = true ->
  smem (OneOfStringType.discriminator_field_name u) (ObjectType.properties o) = true ->
  getattr data (OneOfStringType.discriminator_field_name u) = Ok (VStr k) ->
  OneOfStringType.validate u data p = ObjectType.validate o data []
  /\ OneOfStringType.serialize u data p = ObjectType.serialize o data [].
Proof.
  intros Ht Hpre Hi Hm Hg. unfold OneOfStringType.validate, OneOfStringType.serialize.
  rewrite Ht, validate_types_skip, serialize_types_skip by exact Hpre.
  cbn [OneOfStringType.validate_types OneOfStringType.serialize_types].
  rewrite Hi, Hm. unfold OneOfStringType.discriminator_differs. rewrite Hg.
  cbn [bind]. rewrite String.eqb_refl. cbn [negb].
  split.
  - destruct (ObjectType.validate o data []) as [[]|e]; reflexivity.
  - destruct (ObjectType.serialize o data []); reflexivity.
Qed.

Lemma X21_union_member_with_declared_tag_witness :
  OneOfStringType.serialize tagged_union (VObj ["T"] [("_type", VStr "t")]) [KStr "u"]
  = Ok (VDict [(KStr "_type", VStr "t")]).
Proof.
  exact (proj2 (X21_union_member_with_declared_tag tagged_union
                  (VObj ["T"] [("_type", VStr "t")]) [KStr "u"] [] [] "t" tagged_object
                  eq_refl (fun _ _ H => match H with end) eq_refl eq_refl eq_refl)).
Defined.

(** X22.  For a value whose class selects a member that declares the
    discriminator as a property and accepts the value, but whose
    discriminator field differs from the key of that member, validate and
    encode of the union raise "Invalid value for ..." at the path of the
    union extended by the discriminator field. *)
Theorem X22_union_checks_declared_tag
        (u : OneOfStringType.t) (data : value) (p : path)
        (pre post : list (string * ObjectType.t)) (k : string) (o : ObjectType.t)
        (v w : value) :
  OneOfStringType.types u = pre ++ (k, o) :: post ->
  (forall k' o', In (k', o') pre ->
     isinstance data (PyClass.name (ObjectType.cls o')) = false) ->
  isinstance data (PyClass.name (ObjectType.cls o)) = true ->
  smem (OneOfStringType.discriminator_field_name u) (ObjectType.properties o) = true ->
  getattr data (OneOfStringType.discriminator_field_name u) = Ok v ->
  v <> VStr k ->
  ObjectType.validate o data [] = Ok tt ->
  ObjectType.serialize o data [] = Ok w ->
  let e :=
    ConstraintException (p ++ [KStr (OneOfStringType.discriminator_field_name u)])
      ("Invalid value for '" ++ OneOfStringType.discriminator_field_name u ++ "' on '"
         ++ PyClass.name (ObjectType.cls o) ++ "', should be: '" ++ k ++ "'") in
  OneOfStringType.validate u data p = Raise e
  /\ OneOfStringType.serialize u data p = Raise e.
Proof.
  intros Ht Hpre Hi Hm Hg Hne Hv Hs e.
  unfold OneOfStringType.validate, OneOfStringType.serialize.
  rewrite Ht, validate_types_skip, serialize_types_skip by exact Hpre.
  cbn [OneOfStringType.validate_types OneOfStringType.serialize_types].
  rewrite Hi, Hm, Hv, Hs. unfold OneOfStringType.discriminator_differs. rewrite Hg.
  cbn [bind].
  assert (Hd : match v with VStr s => negb (String.eqb s k) | _ => true end = true).
  { destruct v; try reflexivity. destruct (String.eqb_spec s k) as [->|]; [|reflexivity].
    now contradiction Hne. }
  rewrite Hd. split; reflexivity.
Qed.

Lemma X22_union_checks_declared_tag_witness :
  OneOfStringType.validate tagged_union (VObj ["T"] [("_type", VStr "z")]) [KStr "u"]
  = Raise (ConstraintException [KStr "u"; KStr "_type"]
             "Invalid value for '_type' on 'T', should be: 't'").
Proof.
  exact (proj1 (X22_union_checks_declared_tag tagged_union
                  (VObj ["T"] [("_type", VStr "z")]) [KStr "u"] [] [] "t" tagged_object
                  (VStr "z") (VDict [(KStr "_type", VStr "z")])
                  eq_refl (fun _ _ H => match H with end) eq_refl eq_refl eq_refl
                  ltac:(discriminate) eq_refl eq_refl)).
Defined.

(** ** Steps and schemas *)

(** X23.  When a step call returns, its handler returned a pair whose first
    item is the id of a declared output; unless skipped, the input had
    validated at the path [input] and the output data at the path
    [output, <id>]. *)
Theorem X23_step_call_returns_declared_output
        (self : StepType.t) (params : value) (skip_in skip_out : bool)
        (id : string) (output_data : value) :
  StepType.call self params skip_in skip_out = Ok (id, output_data) ->
  exists result output,
    StepType._handler self params = Ok result
    /\ sequence_items result = Ok [VStr id; output_data]
    /\ sget id (StepType.outputs self) = Some output
    /\ (skip_in = true
        \/ AbstractType.validate (StepType.input self) params [KStr "input"] = Ok tt)
    /\ (skip_out = true
        \/ AbstractType.validate output output_data [KStr "output"; KStr id] = Ok tt).
Proof.
  unfold StepType.call. intros H.
  assert (Hin : skip_in = true
                \/ AbstractType.validate (StepType.input self) params [KStr "input"] = Ok tt).
  { destruct skip_in; [now left|right].
    destruct (AbstractType.validate (StepType.input self) params _) as [[]|e];
      [reflexivity|discriminate H]. }
  assert (H' : (result <- StepType._handler self params ;;
                items <- sequence_items result ;;
                match items with
                | [output_id; output_data0] =>
                    found <- StepType.find_output self output_id ;;
                    let (id0, output) := found : string * AbstractType.t in
                    (if skip_out then Ok tt
                     else AbstractType.validate output output_data0
                            [KStr "output"; KStr id0]) ;;;
                    Ok (id0, output_data0)
                | _ => Raise BadArgumentException
                end) = Ok (id, output_data)).
  { destruct Hin as [->|Hv]; [exact H|].
    destruct skip_in; [exact H|]. now rewrite Hv in H. }
  clear H.
  destruct (StepType._handler self params) as [result|e] eqn:Hh; [|discriminate H'].
  cbn [bind] in H'.
  destruct (sequence_items result) as [items|e] eqn:Hq; [|discriminate H'].
  cbn [bind] in H'.
  destruct items as [|output_id [|output_data0 [|]]]; try discriminate H'.
  destruct (StepType.find_output self output_id) as [[id0 output]|e] eqn:Hf;
    [|discriminate H'].
  cbn [bind] in H'.
  assert (Hout : skip_out = true
                 \/ AbstractType.validate output output_data0 [KStr "output"; KStr id0]
                    = Ok tt).
  { destruct skip_out; [now left|right].
    destruct (AbstractType.validate output output_data0 _) as [[]|e];
      [reflexivity|discriminate H']. }
  assert (E : id0 = id /\ output_data0 = output_data).
  { destruct skip_out; [now injection H'|].
    destruct (AbstractType.validate output output_data0 _); [|discriminate H'].
    now injection H'. }
  destruct E as [-> ->].
  unfold StepType.find_output in Hf.
  destruct (hashable output_id); [|discriminate Hf].
  destruct output_id; try discriminate Hf.
  destruct (sget s (StepType.outputs self)) as [o|] eqn:Hs; [|discriminate Hf].
  injection Hf as -> ->.
  exists result, output. repeat split; assumption.
Qed.

Lemma X23_step_call_returns_declared_output_witness :
  exists result output,
    StepType._handler good_step (VObj ["In"] []) = Ok result
    /\ sequence_items result = Ok [VStr "success"; VObj ["Out"] [("x", VInt 1)]]
    /\ sget "success" (StepType.outputs good_step) = Some output
    /\ (false = true
        \/ AbstractType.validate (StepType.input good_step) (VObj ["In"] [])
             [KStr "input"] = Ok tt)
    /\ (false = true
        \/ AbstractType.validate output (VObj ["Out"] [("x", VInt 1)])
             [KStr "output"; KStr "success"] = Ok tt).
Proof.
  exact (X23_step_call_returns_declared_output good_step (VObj ["In"] []) false false
           "success" (VObj ["Out"] [("x", VInt 1)]) eq_refl).
Defined.

(** X24.  When a schema call returns, the step exists, the raw input decoded
    against its input schema, the step returned the id of a declared output,
    and the returned data is the encoding of the step's output against that
    output's schema, or, with [skip_serialization], the output itself, which
    validates. *)
Theorem X24_schema_call_outcome
        (self : SchemaType.t) (step_id : string) (data : value)
        (skip_serialization : bool) (output_id : string) (out : value) :
  fst (SchemaType.call self step_id data skip_serialization) = Ok (output_id, out) ->
  exists step input_param output output_data,
    sget step_id (SchemaType.steps self) = Some step
    /\ fst (AbstractType.unserialize (StepType.input step) data []) = Ok input_param
    /\ StepType.call step input_param true true = Ok (output_id, output_data)
    /\ sget output_id (StepType.outputs step) = Some output
    /\ if skip_serialization
       then out = output_data /\ AbstractType.validate output output_data [] = Ok tt
       else AbstractType.serialize output output_data [] = Ok out.
Proof.
  unfold SchemaType.call, SchemaType.find_step.
  destruct (sget step_id (SchemaType.steps self)) as [step|] eqn:Hs; [|discriminate].
  unfold SchemaType._unserialize_input.
  destruct (AbstractType.unserialize (StepType.input step) data []) as [r d] eqn:Hu.
  cbn [fst]. destruct r as [input_param|e]; [|destruct e; discriminate].
  cbn [SchemaType.wrap_input bind]. unfold SchemaType._call_step.
  destruct (StepType.call step input_param true true) as [[oid od]|e] eqn:Hc;
    [|discriminate].
  cbn [bind]. intros H.
  destruct skip_serialization.
  - destruct (sget oid (StepType.outputs step)) as [o|] eqn:Ho; [|discriminate H].
    cbn [bind] in H.
    destruct (AbstractType.validate o od []) as [[]|e] eqn:Hv; [|discriminate H].
    injection H as -> ->.
    exists step, input_param, o, out. rewrite Hu. repeat split; assumption.
  - unfold SchemaType._serialize_output in H.
    destruct (sget oid (StepType.outputs step)) as [o|] eqn:Ho; [|discriminate H].
    cbn [bind] in H.
    destruct (AbstractType.serialize o od []) as [w|e] eqn:Hw;
      [|destruct e; discriminate H].
    cbn in H. injection H as -> ->.
    exists step, input_param, o, od. rewrite Hu. repeat split; assumption.
Qed.

Lemma X24_schema_call_outcome_witness :
  exists step input_param output output_data,
    sget "run" (SchemaType.steps good_schema) = Some step
    /\ fst (AbstractType.unserialize (StepType.input step) (VDict []) []) = Ok input_param
    /\ StepType.call step input_param true true = Ok ("success", output_data)
    /\ sget "success" (StepType.outputs step) = Some output
    /\ AbstractType.serialize output output_data [] = Ok (VDict [(KStr "x", VInt 1)]).
Proof.
  exact (X24_schema_call_outcome good_schema "run" (VDict []) false "success"
           (VDict [(KStr "x", VInt 1)]) eq_refl).
Defined.

(** X25.  When the input of an existing step does not decode, the schema
    call raises the error of the decode, a ConstraintException turned into an
    InvalidInputException with the same path and message, whatever the
    handler of the step is. *)
Theorem X25_schema_call_stops_at_bad_input
        (self : SchemaType.t) (step_id : string) (data : value)
        (skip_serialization : bool) (step : StepType.t) (e : exn) :
  sget step_id (SchemaType.steps self) = Some step ->
  fst (AbstractType.unserialize (StepType.input step) data []) = Raise e ->
  fst (SchemaType.call self step_id data skip_serialization)
  = Raise match e with
          | ConstraintException q msg => InvalidInputException q msg
          | _ => e
          end.
Proof.
  intros Hs He. unfold SchemaType.call, SchemaType.find_step. rewrite Hs.
  unfold SchemaType._unserialize_input.
  destruct (AbstractType.unserialize (StepType.input step) data []) as [r d].
  cbn [fst] in *. subst r. destruct e; reflexivity.
Qed.

Lemma X25_schema_call_stops_at_bad_input_witness :
  fst (SchemaType.call good_schema "run" (VInt 3) false)
  = Raise (InvalidInputException [] "Must be a dict, got int").
Proof.
  exact (X25_schema_call_stops_at_bad_input good_schema "run" (VInt 3) false good_step
           (ConstraintException [] "Must be a dict, got int") eq_refl eq_refl).
Defined.

(** X26.  For a step id that the schema does not have, [__call__],
    [unserialize_input], [call_step] and [serialize_output] raise
    NoSuchStepException with that id, and the data is not touched. *)
Theorem X26_schema_entry_points_need_a_known_step
        (self : SchemaType.t) (step_id output_id : string) (data : value)
        (skip_serialization : bool) :
  sget step_id (SchemaType.steps self) = None ->
  SchemaType.call self step_id data skip_serialization
    = (Raise (NoSuchStepException step_id), data)
  /\ SchemaType.unserialize_input self step_id data
    = (Raise (NoSuchStepException step_id), data)
  /\ SchemaType.call_step self step_id data = Raise (NoSuchStepException step_id)
  /\ SchemaType.serialize_output self step_id output_id data
    = Raise (NoSuchStepException step_id).
Proof.
  intros H.
  unfold SchemaType.call, SchemaType.unserialize_input, SchemaType.call_step,
    SchemaType.serialize_output, SchemaType.find_step.
  rewrite H. repeat split; reflexivity.
Qed.

Lemma X26_schema_entry_points_witness :
  SchemaType.call good_schema "walk" (VDict []) false
  = (Raise (NoSuchStepException "walk"), VDict []).
Proof.
  exact (proj1 (X26_schema_entry_points_need_a_known_step good_schema "walk" "success"
                  (VDict []) false eq_refl)).
Defined.
